(** * Column/segment stores, index builder and immutable index of the TAE
    storage layer: a shallow embedding and its verified properties.

    Sources embedded here:
    - package [segmentio]: [columnBlock] and [segmentFile];
    - package [indexwrapper]: [immutableIndex];
    - package [jobs]: [BuildAndFlushBlockIndex].

    Conventions.  Go integers are [Z]; a nil-able [error] is [option error];
    a nil-able slice is an [option (list _)]; a run-time panic is the
    [Panic] outcome of [go].  Calls that leave the modelled objects (the raw
    segment store, file I/O, the logger, index readers and writers) are
    recorded as [event]s, in call order.  Locks are not modelled: every
    operation is embedded as it runs on one thread. *)

From Stdlib Require Import ZArith Lia Strings.Byte.
From stdpp Require Import base option list gmap strings pretty.

Local Open Scope Z_scope.

(** ** Go run-time outcomes and the error values of this layer *)

Inductive go (A : Type) : Type :=
| Return (a : A)
| Panic (msg : string).
Arguments Return {A} a.
Arguments Panic {A} msg.

Inductive error : Type :=
| ErrInvalidParam                  (* file.ErrInvalidParam *)
| ErrPossibleDuplicate             (* data.ErrPossibleDuplicate *)
| ErrSyntax (fn input : string)    (* strconv.NumError{Err: ErrSyntax} *)
| ErrRange (fn input : string)     (* strconv.NumError{Err: ErrRange} *)
| ErrExternal (code : Z).          (* any error raised by a collaborator *)

Global Instance error_eq_dec : EqDecision error.
Proof. solve_decision. Defined.

(** ** The raw segment store, as far as this layer sees it *)

Module Segment.

(** Modelled from the spec: [segment.BlockFile] is not in the source.  A
    raw file handle carries its name and the size, origin-size and
    compression metadata that replay records (spec, section 6). *)
Record BlockFile : Type := mkBlockFile {
  name : string;
  fileSize : Z;
  originSize : Z;
  algo : Z }.

Global Instance BlockFile_eq_dec : EqDecision BlockFile.
Proof. solve_decision. Defined.

(** Modelled from the spec: raw store primitive [newFile(name)]; the new
    handle is empty and uncompressed. *)
Definition NewBlockFile (fname : string) : BlockFile :=
  mkBlockFile fname 0 0 0.

End Segment.

(** The calls [BuildAndFlushBlockIndex] makes that can fail, in program
    order. *)
Inductive jobStep : Type :=
| OpenColumnStep          (* file.OpenColumn(pk) *)
| OpenZMFileStep          (* pkColumn.OpenIndexFile(0) *)
| ZMInitStep              (* zoneMapWriter.Init *)
| ZMAddValuesStep         (* zoneMapWriter.AddValues *)
| ZMFinalizeStep          (* zoneMapWriter.Finalize *)
| OpenSFFileStep          (* pkColumn.OpenIndexFile(1) *)
| BFInitStep              (* bfWriter.Init *)
| BFAddValuesStep         (* bfWriter.AddValues *)
| BFFinalizeStep          (* bfWriter.Finalize *)
| MarshalStep             (* metas.Marshal *)
| WriteIndexMetaStep.     (* file.WriteIndexMeta *)

Global Instance jobStep_eq_dec : EqDecision jobStep.
Proof. solve_decision. Defined.

(** Calls that leave the modelled objects. *)
Inductive event : Type :=
| EvLog (msg : string)                          (* logutil.Infof *)
| EvNewBlockFile (fname : string)               (* Segment.NewBlockFile *)
| EvReleaseFile (f : Segment.BlockFile)         (* Segment.ReleaseFile *)
| EvIndexWrite (slot : Z) (buf : list byte)     (* indexFile.Write *)
| EvIndexRead (slot : Z)                        (* indexFile.Read *)
| EvUnmount                                     (* Segment.Unmount *)
| EvDestroySegment                              (* Segment.Destroy *)
| EvZMContains (key : Z)                        (* ZMReader.Contains *)
| EvZMContainsAny (keys : list Z)               (* ZMReader.ContainsAny *)
| EvBFMayContainsKey (key : Z)                  (* BFReader.MayContainsKey *)
| EvBFMayContainsAnyKeys (keys : list Z)        (* BFReader.MayContainsAnyKeys *)
| EvJob (s : jobStep) (err : option error).     (* a call of the index builder and its error result *)

(** ** Reference counting *)

Module RefHelper.

(** Modelled from the spec: [common.RefHelper] is not in the source.
    Section 5: a counter incremented by [ref()] and decremented by
    [unref()]; the transition from count 1 to 0 is the point at which the
    destroy callback fires.  [Unref] returns the new helper and whether
    this call produced the zero crossing. *)
Record t : Type := mk { Refs : Z }.

Definition zero : t := mk 0.

Definition Ref (h : t) : t := mk (Refs h + 1).

Definition Unref (h : t) : t * bool :=
  let v := Refs h - 1 in (mk v, v =? 0).

End RefHelper.

(** ** Package segmentio: the column store *)

Module Segmentio.

Import Segment.

Record fileStat : Type := mkStat {
  stat_size : Z;
  stat_originSize : Z;
  stat_algo : Z;
  stat_name : string }.

(** Modelled from the spec: the file objects [dataFile], [updatesFile] and
    [indexFile] and their constructors are not in the source.  Each is
    reference counted; the data file holds the sequence of versioned raw
    handles ([None] is Go's nil slice) and the stat of the last replayed
    handle; an index-slot file holds its bytes. *)
Record dataFile : Type := mkData {
  data_ref : RefHelper.t;
  file : option (list BlockFile);
  stat : fileStat }.

(** Modelled from the spec: see [dataFile]. *)
Record updatesFile : Type := mkUpdates {
  updates_ref : RefHelper.t }.

(** Modelled from the spec: see [dataFile]. *)
Record indexFile : Type := mkIndex {
  index_ref : RefHelper.t;
  index_buf : list byte }.

(** Modelled from the spec: the constructors [newData], [newUpdates] and
    [newIndex] are not in the source.  A fresh file object holds one
    reference, as every reference-counted object of this layer after its
    construction (section 4.1), has no raw handle and no bytes yet. *)
Definition newData : dataFile :=
  mkData (RefHelper.Ref RefHelper.zero) None (mkStat 0 0 0 "").

(** Modelled from the spec: see [newData]. *)
Definition newUpdates : updatesFile :=
  mkUpdates (RefHelper.Ref RefHelper.zero).

(** Modelled from the spec: see [newData]. *)
Definition newIndex : indexFile :=
  mkIndex (RefHelper.Ref RefHelper.zero) [].

(** The interface [common.IRWFile] of an index-slot file.  Its methods are
    not in the source, so the column store is embedded over any
    implementation: [Write] returns the byte count, the error and the
    file after the call; [Read] also returns the bytes it put in the
    caller's buffer. *)
Class IRWFile : Type := {
  indexFile_Write : indexFile -> list byte -> Z * option error * indexFile;
  indexFile_Read :
    indexFile -> list byte -> Z * option error * indexFile * list byte }.

(** [columnBlock].  [block_id] stands for the back reference [cb.block],
    of which the column store only reads [id]; the raw segment behind
    [cb.block.seg] is reached through [event]s. *)
Record columnBlock : Type := mkColumnBlock {
  ref : RefHelper.t;
  block_id : Z;
  ts : Z;
  indexes : list indexFile;
  updates : updatesFile;
  data : dataFile;
  col : Z }.

Definition set_ref (r : RefHelper.t) (cb : columnBlock) : columnBlock :=
  mkColumnBlock r (block_id cb) (ts cb) (indexes cb) (updates cb) (data cb) (col cb).
Definition set_ts (t : Z) (cb : columnBlock) : columnBlock :=
  mkColumnBlock (ref cb) (block_id cb) t (indexes cb) (updates cb) (data cb) (col cb).
Definition set_indexes (l : list indexFile) (cb : columnBlock) : columnBlock :=
  mkColumnBlock (ref cb) (block_id cb) (ts cb) l (updates cb) (data cb) (col cb).
Definition set_updates (u : updatesFile) (cb : columnBlock) : columnBlock :=
  mkColumnBlock (ref cb) (block_id cb) (ts cb) (indexes cb) u (data cb) (col cb).
Definition set_data (d : dataFile) (cb : columnBlock) : columnBlock :=
  mkColumnBlock (ref cb) (block_id cb) (ts cb) (indexes cb) (updates cb) d (col cb).

Definition set_file (fs : option (list BlockFile)) (d : dataFile) : dataFile :=
  mkData (data_ref d) fs (stat d).
Definition set_stat (s : fileStat) (d : dataFile) : dataFile :=
  mkData (data_ref d) (file d) s.

(** The file object a returned [common.IRWFile] value points to. *)
Inductive fileRef : Type :=
| RefIndex (slot : Z)
| RefUpdates
| RefData.

(** fmt.Sprintf("%d_%d.blk", col, id) and fmt.Sprintf("%d_%d_%d.blk", col, id, ts) *)
Definition baseName (c id : Z) : string :=
  pretty c +:+ "_" +:+ pretty id +:+ ".blk".
Definition versionName (c id t : Z) : string :=
  pretty c +:+ "_" +:+ pretty id +:+ "_" +:+ pretty t +:+ ".blk".

(** [make([]*indexFile, indexCnt)] panics on a negative length. *)
Definition newColumnBlock (id indexCnt c : Z) : go columnBlock * list event :=
  if indexCnt <? 0 then (Panic "makeslice: len out of range", [])
  else
    let fname := baseName c id in
    let d := set_file (Some [NewBlockFile fname]) newData in
    (Return (mkColumnBlock (RefHelper.Ref RefHelper.zero) id 0
               (replicate (Z.to_nat indexCnt) newIndex) newUpdates d c),
     [EvNewBlockFile fname]).

Definition openColumnBlock (id indexCnt c : Z) : go columnBlock :=
  if indexCnt <? 0 then Panic "makeslice: len out of range"
  else
    let d := set_file (Some []) newData in
    Return (mkColumnBlock (RefHelper.Ref RefHelper.zero) id 0
              (replicate (Z.to_nat indexCnt) newIndex) newUpdates d c).

Definition WriteTS (cb : columnBlock) (t : Z)
  : option error * columnBlock * list event :=
  let cb := set_ts t cb in
  match file (data cb) with
  | Some fs =>
      let fname := versionName (col cb) (block_id cb) t in
      (None, set_data (set_file (Some (fs ++ [NewBlockFile fname])) (data cb)) cb,
       [EvNewBlockFile fname])
  | None => (None, cb, [])
  end.

Definition ReadTS (cb : columnBlock) : Z := ts cb.

Section FileIO.
Context `{IRWFile}.

Definition WriteIndex (cb : columnBlock) (idx : Z) (buf : list byte)
  : go (option error * columnBlock) * list event :=
  if idx >=? Z.of_nat (length (indexes cb)) then
    (Return (Some ErrInvalidParam, cb), [])
  else
    match (if idx <? 0 then None else indexes cb !! Z.to_nat idx) with
    | None => (Panic "index out of range", [])
    | Some vfile =>
        let '(_, err, vfile') := indexFile_Write vfile buf in
        (Return (err, set_indexes (<[Z.to_nat idx := vfile']> (indexes cb)) cb),
         [EvIndexWrite idx buf])
    end.

Definition ReadIndex (cb : columnBlock) (idx : Z) (buf : list byte)
  : go (option error * columnBlock * list byte) * list event :=
  if idx >=? Z.of_nat (length (indexes cb)) then
    (Return (Some ErrInvalidParam, cb, buf), [])
  else
    match (if idx <? 0 then None else indexes cb !! Z.to_nat idx) with
    | None => (Panic "index out of range", [])
    | Some vfile =>
        let '(_, err, vfile', buf') := indexFile_Read vfile buf in
        (Return (err, set_indexes (<[Z.to_nat idx := vfile']> (indexes cb)) cb, buf'),
         [EvIndexRead idx])
    end.

End FileIO.

Definition GetDataFileStat (cb : columnBlock) : fileStat := stat (data cb).

Definition indexFile_Ref (f : indexFile) : indexFile :=
  mkIndex (RefHelper.Ref (index_ref f)) (index_buf f).
Definition updatesFile_Ref (f : updatesFile) : updatesFile :=
  mkUpdates (RefHelper.Ref (updates_ref f)).
Definition dataFile_Ref (f : dataFile) : dataFile :=
  mkData (RefHelper.Ref (data_ref f)) (file f) (stat f).

Definition OpenIndexFile (cb : columnBlock) (idx : Z)
  : go (option fileRef * option error * columnBlock) :=
  if idx >=? Z.of_nat (length (indexes cb)) then
    Return (None, Some ErrInvalidParam, cb)
  else
    match (if idx <? 0 then None else indexes cb !! Z.to_nat idx) with
    | None => Panic "index out of range"
    | Some vfile =>
        Return (Some (RefIndex idx), None,
                set_indexes (<[Z.to_nat idx := indexFile_Ref vfile]> (indexes cb)) cb)
    end.

Definition OpenUpdateFile (cb : columnBlock)
  : option fileRef * option error * columnBlock :=
  let cb := set_updates (updatesFile_Ref (updates cb)) cb in
  (Some RefData, None, cb).

Definition OpenDataFile (cb : columnBlock)
  : option fileRef * option error * columnBlock :=
  let cb := set_data (dataFile_Ref (data cb)) cb in
  (Some RefData, None, cb).

Definition destroyMsg (cb : columnBlock) : string :=
  "Destroying Block " +:+ pretty (block_id cb) +:+ " Col @ TS " +:+ pretty (ts cb).

Definition Destroy (cb : columnBlock) : list event :=
  EvLog (destroyMsg cb) ::
  match file (data cb) with
  | Some files => EvReleaseFile <$> files
  | None => []
  end.

(** [cb.close], the [OnZeroCB] both constructors install. *)
Definition close (cb : columnBlock) : list event := Destroy cb.

Definition Ref (cb : columnBlock) : columnBlock :=
  set_ref (RefHelper.Ref (ref cb)) cb.

Definition Unref (cb : columnBlock) : columnBlock * list event :=
  let '(r, zero) := RefHelper.Unref (ref cb) in
  let cb := set_ref r cb in
  (cb, if zero then close cb else []).

Definition Close (cb : columnBlock) : option error * columnBlock * list event :=
  let '(cb, evs) := Unref cb in (None, cb, evs).

End Segmentio.

(** ** The Go library calls replay parses file names with *)

Global Instance go_ret : MRet go := fun _ a => Return a.
Global Instance go_bind : MBind go := fun _ _ f m =>
  match m with
  | Return a => f a
  | Panic msg => Panic msg
  end.

Module Strings.

(** [splitFrom sep skip cur s]: [cur] is the field read so far, [skip] the
    number of characters of a matched separator still to drop. *)
Fixpoint splitFrom (sep : string) (skip : nat) (cur s : string) : list string :=
  match s with
  | EmptyString => [cur]
  | String c s' =>
      match skip with
      | S n => splitFrom sep n cur s'
      | O =>
          if String.prefix sep s
          then cur :: splitFrom sep (String.length sep - 1) "" s'
          else splitFrom sep 0 (cur +:+ String c "") s'
      end
  end.

(** [strings.Split(s, sep)] for a non-empty [sep], which is how the source
    calls it: the fields between the non-overlapping occurrences of [sep],
    read from the left. *)
Definition Split (s sep : string) : list string := splitFrom sep 0 "" s.

End Strings.

Module Strconv.

Definition digit (c : Ascii.ascii) : option Z :=
  let n := Z.of_N (Ascii.N_of_ascii c) in
  if (48 <=? n) && (n <=? 57) then Some (n - 48) else None.

(** The digit loop of [strconv.ParseUint] in base 10: a character that is
    no digit is a syntax error, a value above [maxVal] a range error,
    whichever comes first from the left. *)
Fixpoint parseDigits (maxVal : Z) (s0 : string) (n : Z) (s : string) : error + Z :=
  match s with
  | EmptyString => inr n
  | String c s' =>
      match digit c with
      | None => inl (ErrSyntax "ParseUint" s0)
      | Some d =>
          let n1 := n * 10 + d in
          if n1 >? maxVal then inl (ErrRange "ParseUint" s0)
          else parseDigits maxVal s0 n1 s'
      end
  end.

(** [strconv.ParseUint(s, 10, bitSize)]. *)
Definition ParseUint (s : string) (bitSize : Z) : error + Z :=
  match s with
  | EmptyString => inl (ErrSyntax "ParseUint" s)
  | _ => parseDigits (2 ^ bitSize - 1) s 0 s
  end.

End Strconv.

(** ** Package segmentio: the segment store *)

Module SegmentFile.

Import Segment Segmentio.

(** Modelled from the spec: [blockFile] and its constructor [replayBlock]
    are not in the source.  Section 3: a block store has an id and an
    ordered array of column stores whose length is the schema's column
    count; section 4.1: replay creates the column stores of a block it
    meets for the first time, each opened for replay with the index-slot
    count declared for its column (a column missing from the map has
    none). *)
Record blockFile : Type := mkBlock {
  id : Z;
  columns : list columnBlock }.

(** Modelled from the spec: see [blockFile]; [make] panics on a negative
    column count. *)
Definition replayBlock (bid colCnt : Z) (indexCnt : gmap Z Z) : go blockFile :=
  if colCnt <? 0 then Panic "makeslice: len out of range"
  else
    cols ← mapM (fun i => openColumnBlock bid (default 0 (indexCnt !! i)) i)
                (seqZ 0 colCnt);
    mret (mkBlock bid cols).

(** [segmentFile]; the raw segment [sf.seg] is reached through the listing
    handed to [Replay]. *)
Record segmentFile : Type := mkSegmentFile {
  seg_ref : RefHelper.t;
  segmentID : Z;
  seg_ts : Z;
  blocks : gmap Z blockFile;
  seg_name : string }.

Definition set_blocks (m : gmap Z blockFile) (sf : segmentFile) : segmentFile :=
  mkSegmentFile (seg_ref sf) (segmentID sf) (seg_ts sf) m (seg_name sf).

(** [openSegment], once the raw segment has opened. *)
Definition openSegment (sname : string) (sid : Z) : segmentFile :=
  mkSegmentFile (RefHelper.Ref RefHelper.zero) sid 0 ∅ sname.

Definition Close (sf : segmentFile) : option error * segmentFile := (None, sf).

(** Modelled from the spec: [blockFile.Destroy] is not in the source.
    Section 3: destroying a segment recursively destroys all blocks;
    section 4.2: destroying a column store releases every data-file version
    handle. *)
Definition blockDestroy (bf : blockFile) : list event :=
  columns bf ≫= Segmentio.Destroy.

(** [Destroy]; the [range] over [sf.blocks] visits the blocks in the order
    of [map_to_list]. *)
Definition Destroy (sf : segmentFile) : list event :=
  EvLog ("Destroying Segment " +:+ pretty (segmentID sf)) ::
  (map_to_list (blocks sf) ≫= fun '(_, bf) => blockDestroy bf) ++
  [EvUnmount; EvDestroySegment].

(** [sf.close], the [OnZeroCB] both constructors install. *)
Definition close (sf : segmentFile) : list event := Destroy sf.

Definition set_seg_ref (r : RefHelper.t) (sf : segmentFile) : segmentFile :=
  mkSegmentFile r (segmentID sf) (seg_ts sf) (blocks sf) (seg_name sf).

Definition Ref (sf : segmentFile) : segmentFile :=
  set_seg_ref (RefHelper.Ref (seg_ref sf)) sf.

Definition Unref (sf : segmentFile) : segmentFile * list event :=
  let '(r, zero) := RefHelper.Unref (seg_ref sf) in
  let sf := set_seg_ref r sf in
  (sf, if zero then close sf else []).

(** What the loop body of [Replay] decides for one entry of the listing. *)
Inductive step : Type :=
| Continue (sf : segmentFile)
| Abort (err : error) (sf : segmentFile).

(** The statements of the loop body from [bf.columns[col]] on, for the
    column store [c] found there. *)
Definition replayColumn (c : columnBlock) (f : BlockFile) (fileName : list string)
  : go (option error * columnBlock) :=
  let files := default [] (file (data c)) ++ [f] in
  let d := set_stat (mkStat (fileSize f) (originSize f) (algo f) (name f))
             (set_file (Some files) (data c)) in
  let c := set_data d c in
  if (2 <? Z.of_nat (length fileName)) then
    match fileName !! 2%nat with
    | None => Panic "index out of range"
    | Some f2 =>
        match Strconv.ParseUint f2 64 with
        | inl err => Return (Some err, c)
        | inr t => Return (None, if ts c <? t then set_ts t c else c)
        end
    end
  else Return (None, c).

Definition replayNode (colCnt : Z) (indexCnt : gmap Z Z)
    (sf : segmentFile) (node : string * BlockFile) : go step :=
  let '(fname, f) := node in
  match Strings.Split fname ".blk" with
  | [] => Panic "index out of range"
  | tmp0 :: _ =>
      let fileName := Strings.Split tmp0 "_" in
      if (Z.of_nat (length fileName) <? 2) then Return (Continue sf)
      else
        match fileName !! 1%nat, fileName !! 0%nat with
        | Some f1, Some f0 =>
            match Strconv.ParseUint f1 32 with
            | inl err => Return (Abort err sf)
            | inr bid =>
                bf ← match blocks sf !! bid with
                     | Some bf => Return bf
                     | None => replayBlock bid colCnt indexCnt
                     end;
                let sf := set_blocks (<[bid := bf]> (blocks sf)) sf in
                match Strconv.ParseUint f0 32 with
                | inl err => Return (Abort err sf)
                | inr c =>
                    match columns bf !! Z.to_nat c with
                    | None => Panic "index out of range"
                    | Some cb =>
                        '(err, cb) ← replayColumn cb f fileName;
                        let bf := mkBlock (id bf) (<[Z.to_nat c := cb]> (columns bf)) in
                        let sf := set_blocks (<[bid := bf]> (blocks sf)) sf in
                        match err with
                        | Some err => Return (Abort err sf)
                        | None => Return (Continue sf)
                        end
                    end
                end
            end
        | _, _ => Panic "index out of range"
        end
  end.

(** The fields [Replay] reads a name by, and the names its loop passes
    over: those with fewer than two fields. *)
Definition fields (fname : string) : list string :=
  match Strings.Split fname ".blk" with
  | [] => []
  | tmp0 :: _ => Strings.Split tmp0 "_"
  end.

Definition skipped (fname : string) : bool :=
  Z.of_nat (length (fields fname)) <? 2.

Fixpoint replayNodes (colCnt : Z) (indexCnt : gmap Z Z)
    (sf : segmentFile) (nodes : list (string * BlockFile))
  : go (option error * segmentFile) :=
  match nodes with
  | [] => Return (None, sf)
  | node :: rest =>
      s ← replayNode colCnt indexCnt sf node;
      match s with
      | Continue sf => replayNodes colCnt indexCnt sf rest
      | Abort err sf => Return (Some err, sf)
      end
  end.

(** [Replay].  [segReplay] is what [sf.seg.Replay(cache)] returned and
    [nodes] the listing [sf.seg.GetNodes()], in the order the [range] over
    that map visits it. *)
Definition Replay (sf : segmentFile) (colCnt : Z) (indexCnt : gmap Z Z)
    (segReplay : option error) (nodes : list (string * BlockFile))
  : go (option error * segmentFile) :=
  match segReplay with
  | Some err => Return (Some err, sf)
  | None => replayNodes colCnt indexCnt sf nodes
  end.

End SegmentFile.

(** ** Package indexwrapper: the immutable index *)

Module Indexwrapper.

(** [roaring.Bitmap] behind a nil-able pointer: a set of row offsets. *)
Definition bitmap : Type := option (gset N).

(** The index kinds of [IndexMeta.IdxType].  The source names two; any other
    value of the enumeration is [OtherIndex]. *)
Inductive IndexType : Type :=
| BlockZoneMapIndex
| StaticFilterIndex
| OtherIndex (code : Z).

(** Modelled from the spec: [IndexMeta] and [IndicesMeta] are not in the
    source.  Section 3: a descriptor is {index kind, target column ordinal,
    slot position}; the metadata is their ordered sequence. *)
Record IndexMeta : Type := mkIndexMeta {
  IdxType : IndexType;
  ColIdx : Z;
  InternalIdx : Z }.

(** Modelled from the spec: see [IndexMeta]. *)
Record IndicesMeta : Type := mkIndicesMeta { Metas : list IndexMeta }.

(** Modelled from the spec: the empty sequence of descriptors. *)
Definition NewEmptyIndicesMeta : IndicesMeta := mkIndicesMeta [].

(** Modelled from the spec: the sequence is ordered; a descriptor is added
    at its end. *)
Definition AddIndex (m : IndicesMeta) (meta : IndexMeta) : IndicesMeta :=
  mkIndicesMeta (Metas m ++ [meta]).

(** The two readers, by the answers of their query methods.  Their code is
    not in the source: the index is embedded over any pair of readers. *)
Record ZMReader : Type := mkZMReader {
  Contains : Z -> bool;
  ContainsAny : list Z -> bitmap * bool }.

Record BFReader : Type := mkBFReader {
  MayContainsKey : Z -> bool * option error;
  MayContainsAnyKeys : list Z -> bitmap -> bool * bitmap * option error }.

Record immutableIndex : Type := mkImmutableIndex {
  zmReader : option ZMReader;
  bfReader : option BFReader }.

Definition NewImmutableIndex : immutableIndex := mkImmutableIndex None None.

Section Dedup.

(** [TranslateError] is not in the source; the protocol is embedded over any
    translation.  [found] is the source's variable [exist]. *)
Variable TranslateError : error -> error.

Definition Dedup (index : immutableIndex) (key : Z)
  : go (option error) * list event :=
  match zmReader index with
  | None => (Panic "nil pointer dereference", [])
  | Some zm =>
      let found := Contains zm key in
      if negb found then (Return None, [EvZMContains key])
      else
        match bfReader index with
        | None => (Panic "nil pointer dereference", [EvZMContains key])
        | Some bf =>
            let '(found, err) := MayContainsKey bf key in
            (Return match err with
                    | Some err => Some (TranslateError err)
                    | None => if found then Some ErrPossibleDuplicate else None
                    end,
             [EvZMContains key; EvBFMayContainsKey key])
        end
  end.

Definition BatchDedup (index : immutableIndex) (keys : list Z) (rowmask : bitmap)
  : go (bitmap * option error) * list event :=
  match zmReader index with
  | None => (Panic "nil pointer dereference", [])
  | Some zm =>
      let '(keyselects, found) := ContainsAny zm keys in
      if negb found then (Return (keyselects, None), [EvZMContainsAny keys])
      else
        match bfReader index with
        | None => (Panic "nil pointer dereference", [EvZMContainsAny keys])
        | Some bf =>
            let '(found, keyselects, err) := MayContainsAnyKeys bf keys keyselects in
            (Return match err with
                    | Some err => (keyselects, Some (TranslateError err))
                    | None =>
                        if negb found then (keyselects, None)
                        else (keyselects, Some ErrPossibleDuplicate)
                    end,
             [EvZMContainsAny keys; EvBFMayContainsAnyKeys keys])
        end
  end.

End Dedup.

(** [common.ID], as far as [ReadFrom] fills it in. *)
Record ID : Type := mkID { PartID : Z; Idx : Z }.

(** The block handle and its files.  The interfaces [data.Block],
    [file.Block], [file.ColumnBlock] and [common.IRWFile] and the index
    writers are implemented outside the source, so the builder and
    [ReadFrom] are embedded over any implementation: [W] is the state
    behind the handles, and every method that can fail returns its error or
    its result together with the state after the call. *)
Class BlockIO (W ColFile IdxFile MetaBuf ZMW BFW : Type) : Type := {
  OpenColumn : Z -> W -> (error + ColFile) * W;
  OpenIndexFile : ColFile -> Z -> W -> (error + IdxFile) * W;
  (* idxFile.Read(buf) with buf sized by idxFile.Stat().Size() *)
  ReadAll : IdxFile -> W -> option error * W;
  LoadIndexMeta : W -> (error + IndicesMeta) * W;
  WriteIndexMeta : MetaBuf -> W -> option error * W;
  Marshal : IndicesMeta -> error + MetaBuf;
  NewZMReader : IdxFile -> ID -> W -> ZMReader;
  NewBFReader : IdxFile -> ID -> W -> BFReader;
  NewZMWriter : ZMW;
  ZMInit : ZMW -> IdxFile -> Z -> Z -> W -> option error * ZMW * W;
  ZMAddValues : ZMW -> list Z -> W -> option error * ZMW * W;
  ZMFinalize : ZMW -> W -> (error + IndexMeta) * W;
  NewBFWriter : BFW;
  BFInit : BFW -> IdxFile -> Z -> Z -> W -> option error * BFW * W;
  BFAddValues : BFW -> list Z -> W -> option error * BFW * W;
  BFFinalize : BFW -> W -> (error + IndexMeta) * W }.

Section ReadFrom.

Context `{io : BlockIO W ColFile IdxFile MetaBuf ZMW BFW}.

(** The loop of [ReadFrom] over [metas.Metas]. *)
Fixpoint readMetas (colFile : ColFile) (metas : list IndexMeta)
    (index : immutableIndex) (w : W) : go (option error * immutableIndex) * W :=
  match metas with
  | [] => (Return (None, index), w)
  | meta :: rest =>
      match OpenIndexFile colFile (InternalIdx meta) w with
      | (inl err, w) => (Return (Some err, index), w)
      | (inr idxFile, w) =>
          let id := mkID (InternalIdx meta + 1000) (ColIdx meta) in
          match IdxType meta with
          | BlockZoneMapIndex =>
              match ReadAll idxFile w with
              | (Some err, w) => (Return (Some err, index), w)
              | (None, w) =>
                  readMetas colFile rest
                    (mkImmutableIndex (Some (NewZMReader idxFile id w)) (bfReader index)) w
              end
          | StaticFilterIndex =>
              match ReadAll idxFile w with
              | (Some err, w) => (Return (Some err, index), w)
              | (None, w) =>
                  readMetas colFile rest
                    (mkImmutableIndex (zmReader index) (Some (NewBFReader idxFile id w))) w
              end
          | OtherIndex _ => (Panic "unsupported index type", w)
          end
      end
  end.

(** [ReadFrom]; [pk] is [entry.GetSchema().PrimaryKey]. *)
Definition ReadFrom (index : immutableIndex) (pk : Z) (w : W)
  : go (option error * immutableIndex) * W :=
  match LoadIndexMeta w with
  | (inl err, w) => (Return (Some err, index), w)
  | (inr metas, w) =>
      match OpenColumn pk w with
      | (inl err, w) => (Return (Some err, index), w)
      | (inr colFile, w) => readMetas colFile (Metas metas) index w
      end
  end.

End ReadFrom.

End Indexwrapper.

(** ** Package jobs: the index builder *)

Module Jobs.

Import Indexwrapper.

Section Build.

Context `{io : BlockIO W ColFile IdxFile MetaBuf ZMW BFW}.

(** The builder runs over the state behind the handles and the trace of the
    calls made so far; an error ends the run. *)
Definition job (A : Type) : Type :=
  W * list event -> (error + A) * (W * list event).

Definition jret {A : Type} (a : A) : job A := fun s => (inr a, s).

Definition jbind {A B : Type} (m : job A) (k : A -> job B) : job B :=
  fun s =>
    match m s with
    | (inl err, s) => (inl err, s)
    | (inr a, s) => k a s
    end.

Definition errOf {A : Type} (r : error + A) : option error :=
  match r with inl err => Some err | inr _ => None end.

(** One call of a collaborator, recorded with its error result. *)
Definition call {A : Type} (st : jobStep) (f : W -> (error + A) * W) : job A :=
  fun '(w, tr) =>
    let '(r, w) := f w in (r, (w, tr ++ [EvJob st (errOf r)])).

(** A method that returns only [err], next to the object it updated. *)
Definition callErr {A : Type} (st : jobStep) (f : W -> option error * A * W) : job A :=
  call st (fun w =>
    let '(err, a, w) := f w in
    (match err with Some err => inl err | None => inr a end, w)).

Local Notation "x <- m ;; k" := (jbind m (fun x => k))
  (at level 100, m at next level, right associativity).

Definition uint16 (x : Z) : Z := x mod 2 ^ 16.

(** [BuildAndFlushBlockIndex]; [pk] is [schema.PrimaryKey]. *)
Definition BuildAndFlushBlockIndex (pk : Z) (pkColumnData : list Z)
  : W * list event -> option error * (W * list event) :=
  fun s =>
    let run : job unit :=
      pkColumn <- call OpenColumnStep (OpenColumn pk) ;;
      let zmIdx := 0 in
      let sfIdx := 1 in
      let metas := NewEmptyIndicesMeta in
      let zoneMapWriter := NewZMWriter in
      zmFile <- call OpenZMFileStep (OpenIndexFile pkColumn zmIdx) ;;
      zoneMapWriter <- callErr ZMInitStep (ZMInit zoneMapWriter zmFile (uint16 pk) zmIdx) ;;
      zoneMapWriter <- callErr ZMAddValuesStep (ZMAddValues zoneMapWriter pkColumnData) ;;
      zmMeta <- call ZMFinalizeStep (ZMFinalize zoneMapWriter) ;;
      let metas := AddIndex metas zmMeta in
      let bfWriter := NewBFWriter in
      sfFile <- call OpenSFFileStep (OpenIndexFile pkColumn sfIdx) ;;
      bfWriter <- callErr BFInitStep (BFInit bfWriter sfFile (uint16 pk) sfIdx) ;;
      bfWriter <- callErr BFAddValuesStep (BFAddValues bfWriter pkColumnData) ;;
      sfMeta <- call BFFinalizeStep (BFFinalize bfWriter) ;;
      let metas := AddIndex metas sfMeta in
      metaBuf <- call MarshalStep (fun w => (Marshal metas, w)) ;;
      callErr WriteIndexMetaStep (fun w =>
        let '(err, w) := WriteIndexMeta metaBuf w in (err, tt, w))
    in
    let '(r, s) := run s in (errOf r, s).

End Build.

(** The failing calls of the builder, in program order. *)
Definition jobSteps : list jobStep :=
  [OpenColumnStep; OpenZMFileStep; ZMInitStep; ZMAddValuesStep; ZMFinalizeStep;
   OpenSFFileStep; BFInitStep; BFAddValuesStep; BFFinalizeStep; MarshalStep;
   WriteIndexMetaStep].

(** The trace of the calls [sts], each returning without error. *)
Definition succeeded (sts : list jobStep) : list event :=
  (fun st => EvJob st None) <$> sts.

End Jobs.

(** ** The index builder as its collaborators see it *)

Module Recording.

Import Indexwrapper.

(** A call of a collaborator, with its arguments other than handles. *)
Inductive call : Type :=
| OpenColumnCall (c : Z)
| OpenIndexFileCall (slot : Z)
| ReadAllCall
| LoadIndexMetaCall
| WriteIndexMetaCall
| ZMInitCall (c slot : Z)
| ZMAddValuesCall (vs : list Z)
| ZMFinalizeCall
| BFInitCall (c slot : Z)
| BFAddValuesCall (vs : list Z)
| BFFinalizeCall.

(** What a call came to: an error, a plain success, a descriptor returned
    by [Finalize], or a blob persisted by [WriteIndexMeta]. *)
Inductive outcome (MetaBuf : Type) : Type :=
| Failed (err : error)
| Done
| Built (meta : IndexMeta)
| Wrote (buf : MetaBuf).
Arguments Failed {MetaBuf} err.
Arguments Done {MetaBuf}.
Arguments Built {MetaBuf} meta.
Arguments Wrote {MetaBuf} buf.

Definition failed {MetaBuf : Type} (o : outcome MetaBuf) : bool :=
  match o with Failed _ => true | _ => false end.

Section Recording.

Context `{io : BlockIO W ColFile IdxFile MetaBuf ZMW BFW}.

Definition record : Type := list (call * outcome MetaBuf).

Definition plain {A : Type} (r : error + A) : outcome MetaBuf :=
  match r with inl err => Failed err | inr _ => Done end.

Definition plainErr (err : option error) : outcome MetaBuf :=
  match err with Some err => Failed err | None => Done end.

(** The collaborators [io], each method that takes the state keeping, in
    the state, the record of the calls made to it and what they came to.
    The state behind the handles and the results are those of [io]. *)
Definition recording : BlockIO (W * record) ColFile IdxFile MetaBuf ZMW BFW := {|
  OpenColumn c s :=
    let '(r, w) := OpenColumn c s.1 in
    (r, (w, s.2 ++ [(OpenColumnCall c, plain r)]));
  OpenIndexFile colFile slot s :=
    let '(r, w) := OpenIndexFile colFile slot s.1 in
    (r, (w, s.2 ++ [(OpenIndexFileCall slot, plain r)]));
  ReadAll f s :=
    let '(err, w) := ReadAll f s.1 in
    (err, (w, s.2 ++ [(ReadAllCall, plainErr err)]));
  LoadIndexMeta s :=
    let '(r, w) := LoadIndexMeta s.1 in
    (r, (w, s.2 ++ [(LoadIndexMetaCall, plain r)]));
  WriteIndexMeta buf s :=
    let '(err, w) := WriteIndexMeta buf s.1 in
    (err, (w, s.2 ++ [(WriteIndexMetaCall,
                       match err with Some err => Failed err | None => Wrote buf end)]));
  Marshal := Marshal;
  NewZMReader f id s := NewZMReader f id s.1;
  NewBFReader f id s := NewBFReader f id s.1;
  NewZMWriter := NewZMWriter;
  ZMInit zw f c slot s :=
    let '(err, zw, w) := ZMInit zw f c slot s.1 in
    (err, zw, (w, s.2 ++ [(ZMInitCall c slot, plainErr err)]));
  ZMAddValues zw vs s :=
    let '(err, zw, w) := ZMAddValues zw vs s.1 in
    (err, zw, (w, s.2 ++ [(ZMAddValuesCall vs, plainErr err)]));
  ZMFinalize zw s :=
    let '(r, w) := ZMFinalize zw s.1 in
    (r, (w, s.2 ++ [(ZMFinalizeCall,
                     match r with inl err => Failed err | inr meta => Built meta end)]));
  NewBFWriter := NewBFWriter;
  BFInit bw f c slot s :=
    let '(err, bw, w) := BFInit bw f c slot s.1 in
    (err, bw, (w, s.2 ++ [(BFInitCall c slot, plainErr err)]));
  BFAddValues bw vs s :=
    let '(err, bw, w) := BFAddValues bw vs s.1 in
    (err, bw, (w, s.2 ++ [(BFAddValuesCall vs, plainErr err)]));
  BFFinalize bw s :=
    let '(r, w) := BFFinalize bw s.1 in
    (r, (w, s.2 ++ [(BFFinalizeCall,
                     match r with inl err => Failed err | inr meta => Built meta end)]))
|}.

(** The calls of a complete run of the builder over the primary-key column
    [pk] and its values, in order: the zone map into slot 0, the filter
    into slot 1, then the metadata. *)
Definition builderCalls (pk : Z) (pkColumnData : list Z) : list call :=
  [OpenColumnCall pk;
   OpenIndexFileCall 0; ZMInitCall (Jobs.uint16 pk) 0; ZMAddValuesCall pkColumnData;
   ZMFinalizeCall;
   OpenIndexFileCall 1; BFInitCall (Jobs.uint16 pk) 1; BFAddValuesCall pkColumnData;
   BFFinalizeCall;
   WriteIndexMetaCall].

(** What the calls before [WriteIndexMeta] come to when none fails and the
    two [Finalize] calls return the descriptors [zmMeta] and [sfMeta]. *)
Definition indexesBuilt (zmMeta sfMeta : IndexMeta) : list (outcome MetaBuf) :=
  [Done; Done; Done; Done; Built zmMeta; Done; Done; Done; Built sfMeta].

(** The metadata of a run whose [Finalize] calls returned [zmMeta] and
    [sfMeta]: the two descriptors, the zone map's first. *)
Definition metasOf (zmMeta sfMeta : IndexMeta) : IndicesMeta :=
  AddIndex (AddIndex NewEmptyIndicesMeta zmMeta) sfMeta.

(** [Inv] is kept by every method of [io] but [WriteIndexMeta]: it speaks of
    a part of the state that only [WriteIndexMeta] writes. *)
Definition keptByIndexCalls (Inv : W -> Prop) : Prop :=
  (forall c w r w', OpenColumn c w = (r, w') -> Inv w -> Inv w') /\
  (forall colFile slot w r w', OpenIndexFile colFile slot w = (r, w') -> Inv w -> Inv w') /\
  (forall zw f c slot w r w', ZMInit zw f c slot w = (r, w') -> Inv w -> Inv w') /\
  (forall zw vs w r w', ZMAddValues zw vs w = (r, w') -> Inv w -> Inv w') /\
  (forall zw w r w', ZMFinalize zw w = (r, w') -> Inv w -> Inv w') /\
  (forall bw f c slot w r w', BFInit bw f c slot w = (r, w') -> Inv w -> Inv w') /\
  (forall bw vs w r w', BFAddValues bw vs w = (r, w') -> Inv w -> Inv w') /\
  (forall bw w r w', BFFinalize bw w = (r, w') -> Inv w -> Inv w').

(** [Inv] is kept by a [WriteIndexMeta] that returns an error. *)
Definition keptByFailedWrite (Inv : W -> Prop) : Prop :=
  forall buf w err w', WriteIndexMeta buf w = (Some err, w') -> Inv w -> Inv w'.

End Recording.

End Recording.

(** ** A sealed block with its zone map and bloom filter *)

Module SealedBlock.

Import Indexwrapper.

(** Modelled from the spec: the zone map is not in the source.  Section 3:
    {min key, max key}, computed once over a block's primary-key column,
    exact.  A zone map over no value has no bounds and contains no key. *)
Record ZoneMap : Type := mkZoneMap { zm_min : Z; zm_max : Z }.

(** Modelled from the spec: the exact bounds after one more value. *)
Definition zmUpdate (zm : option ZoneMap) (v : Z) : option ZoneMap :=
  match zm with
  | None => Some (mkZoneMap v v)
  | Some z => Some (mkZoneMap (Z.min (zm_min z) v) (Z.max (zm_max z) v))
  end.

(** Modelled from the spec: section 4.3, min and max over all values. *)
Definition zmBuild (zm : option ZoneMap) (vs : list Z) : option ZoneMap :=
  foldl zmUpdate zm vs.

(** Modelled from the spec: section 4.4, whether the key lies within
    [min, max]. *)
Definition zmContains (zm : option ZoneMap) (k : Z) : bool :=
  match zm with
  | None => false
  | Some z => (zm_min z <=? k) && (k <=? zm_max z)
  end.

(** Modelled from the spec: section 4.4, the selection mask of a batch.
    The offsets of the keys that satisfy [p], among the offsets [sel] (all
    offsets when [sel] is nil). *)
Definition selectKeys (p : Z -> bool) (keys : list Z) (sel : bitmap) : gset N :=
  list_to_set
    (omap (fun '(i, k) =>
             if p k && match sel with
                       | Some s => bool_decide (N.of_nat i ∈ s)
                       | None => true
                       end
             then Some (N.of_nat i) else None)
          (imap pair keys)).

Section Filter.

(** The hash functions of the filter: any family. *)
Variable hashes : list (Z -> N).

(** Modelled from the spec: the bloom filter is not in the source.
    Section 3: a probabilistic set-membership summary over the primary-key
    column.  It is the classical filter, the set of its set bits: inserting
    a key sets the bits its hashes name. *)
Definition bfAdd (bits : gset N) (k : Z) : gset N :=
  bits ∪ list_to_set ((fun h => h k) <$> hashes).

(** Modelled from the spec: section 4.3, built by inserting every
    primary-key value. *)
Definition bfBuild (bits : gset N) (vs : list Z) : gset N :=
  foldl bfAdd bits vs.

(** Modelled from the spec: a key may be present when all the bits its
    hashes name are set. *)
Definition bfTest (bits : gset N) (k : Z) : bool :=
  forallb (fun h => bool_decide (h k ∈ bits)) hashes.

(** Modelled from the spec: what an index-slot file of a sealed block
    holds, kept decoded (no byte format is in the source). *)
Inductive payload : Type :=
| PZoneMap (zm : option ZoneMap)
| PFilter (bits : gset N).

(** Modelled from the spec: the block file as the builder and [ReadFrom]
    reach it (section 6, block handle): per column the declared number of
    index slots, the index-slot files by (column, slot), and the persisted
    index-metadata blob. *)
Record block : Type := mkSealed {
  slotCount : gmap Z Z;
  files : gmap (Z * Z) payload;
  indexMeta : option IndicesMeta }.

(** Modelled from the spec: [openColumn(ordinal)] of the block handle; the
    column file is named by its ordinal. *)
Definition openColumn (c : Z) (w : block) : (error + Z) * block := (inr c, w).

(** Modelled from the spec: [openIndexFile(slot)]; as in
    [columnBlock.OpenIndexFile], a slot at or past the declared count is an
    invalid parameter.  The index file is named by column and slot. *)
Definition openIndexFile (c slot : Z) (w : block) : (error + Z * Z) * block :=
  if slot >=? default 0 (slotCount w !! c) then (inl ErrInvalidParam, w)
  else (inr (c, slot), w).

(** Modelled from the spec: reading a whole index-slot file. *)
Definition readAll (f : Z * Z) (w : block) : option error * block := (None, w).

(** Modelled from the spec: [loadIndexMeta()]; a block without a blob has
    nothing to load. *)
Definition loadIndexMeta (w : block) : (error + IndicesMeta) * block :=
  match indexMeta w with
  | Some m => (inr m, w)
  | None => (inl (ErrExternal 0), w)
  end.

(** Modelled from the spec: [writeIndexMeta(bytes)] persists the blob. *)
Definition writeIndexMeta (m : IndicesMeta) (w : block) : option error * block :=
  (None, mkSealed (slotCount w) (files w) (Some m)).

(** Modelled from the spec: the zone-map reader answers from the zone map
    in its slot file (section 4.4); a slot that holds no zone map contains
    no key. *)
Definition newZMReader (f : Z * Z) (id : ID) (w : block) : ZMReader :=
  let zm := match files w !! f with Some (PZoneMap zm) => zm | _ => None end in
  mkZMReader (zmContains zm)
    (fun keys =>
       let sel := selectKeys (zmContains zm) keys None in
       (Some sel, bool_decide (sel ≠ ∅))).

(** Modelled from the spec: the bloom-filter reader answers from the filter
    in its slot file (section 4.4); on a slot that holds no filter the
    query is a read failure. *)
Definition newBFReader (f : Z * Z) (id : ID) (w : block) : BFReader :=
  match files w !! f with
  | Some (PFilter bits) =>
      mkBFReader (fun k => (bfTest bits k, None))
        (fun keys sel =>
           let sel := selectKeys (bfTest bits) keys sel in
           (bool_decide (sel ≠ ∅), Some sel, None))
  | _ =>
      mkBFReader (fun _ => (false, Some (ErrExternal 1)))
        (fun _ sel => (false, sel, Some (ErrExternal 1)))
  end.

(** Modelled from the spec: the index writers are not in the source.
    Section 4.3: [Init] binds the target file and the descriptor fields
    (column, slot), [AddValues] folds the values in, [Finalize] writes the
    index to its slot file and returns the descriptor. *)
Record zmWriter : Type := mkZMWriter {
  zw_target : option ((Z * Z) * Z * Z);
  zw_zm : option ZoneMap }.

(** Modelled from the spec: see [zmWriter]. *)
Record bfWriter : Type := mkBFWriter {
  bw_target : option ((Z * Z) * Z * Z);
  bw_bits : gset N }.

(** Modelled from the spec: see [zmWriter]. *)
Definition zmInit (zw : zmWriter) (f : Z * Z) (c slot : Z) (w : block)
  : option error * zmWriter * block :=
  (None, mkZMWriter (Some (f, c, slot)) (zw_zm zw), w).

(** Modelled from the spec: see [zmWriter]. *)
Definition zmAddValues (zw : zmWriter) (vs : list Z) (w : block)
  : option error * zmWriter * block :=
  (None, mkZMWriter (zw_target zw) (zmBuild (zw_zm zw) vs), w).

(** Modelled from the spec: see [zmWriter]. *)
Definition zmFinalize (zw : zmWriter) (w : block) : (error + IndexMeta) * block :=
  match zw_target zw with
  | None => (inl (ErrExternal 2), w)
  | Some (f, c, slot) =>
      (inr (mkIndexMeta BlockZoneMapIndex c slot),
       mkSealed (slotCount w) (<[f := PZoneMap (zw_zm zw)]> (files w)) (indexMeta w))
  end.

(** Modelled from the spec: see [zmWriter]. *)
Definition bfInit (bw : bfWriter) (f : Z * Z) (c slot : Z) (w : block)
  : option error * bfWriter * block :=
  (None, mkBFWriter (Some (f, c, slot)) (bw_bits bw), w).

(** Modelled from the spec: see [zmWriter]. *)
Definition bfAddValues (bw : bfWriter) (vs : list Z) (w : block)
  : option error * bfWriter * block :=
  (None, mkBFWriter (bw_target bw) (bfBuild (bw_bits bw) vs), w).

(** Modelled from the spec: see [zmWriter]. *)
Definition bfFinalize (bw : bfWriter) (w : block) : (error + IndexMeta) * block :=
  match bw_target bw with
  | None => (inl (ErrExternal 2), w)
  | Some (f, c, slot) =>
      (inr (mkIndexMeta StaticFilterIndex c slot),
       mkSealed (slotCount w) (<[f := PFilter (bw_bits bw)]> (files w)) (indexMeta w))
  end.

(** Modelled from the spec: the block handle, its files, the readers and
    the writers above, as one implementation of [BlockIO]; the metadata
    blob is kept decoded. *)
Definition blockIO : BlockIO block Z (Z * Z) IndicesMeta zmWriter bfWriter := {|
  OpenColumn := openColumn;
  OpenIndexFile := openIndexFile;
  ReadAll := readAll;
  LoadIndexMeta := loadIndexMeta;
  WriteIndexMeta := writeIndexMeta;
  Marshal := inr;
  NewZMReader := newZMReader;
  NewBFReader := newBFReader;
  NewZMWriter := mkZMWriter None None;
  ZMInit := zmInit;
  ZMAddValues := zmAddValues;
  ZMFinalize := zmFinalize;
  NewBFWriter := mkBFWriter None ∅;
  BFInit := bfInit;
  BFAddValues := bfAddValues;
  BFFinalize := bfFinalize |}.

End Filter.

End SealedBlock.

(** ** Sequences of reference-count operations on one object *)

Module Lifecycle.

Inductive refOp : Type :=
| OpRef
| OpUnref
| OpClose.

Definition stepColumn (cb : Segmentio.columnBlock) (op : refOp)
  : Segmentio.columnBlock * list event :=
  match op with
  | OpRef => (Segmentio.Ref cb, [])
  | OpUnref => Segmentio.Unref cb
  | OpClose => let '(_, cb, evs) := Segmentio.Close cb in (cb, evs)
  end.

Definition stepSegment (sf : SegmentFile.segmentFile) (op : refOp)
  : SegmentFile.segmentFile * list event :=
  match op with
  | OpRef => (SegmentFile.Ref sf, [])
  | OpUnref => SegmentFile.Unref sf
  | OpClose => let '(_, sf) := SegmentFile.Close sf in (sf, [])
  end.

(** A reference-counted object of this layer. *)
Inductive object : Type :=
| ColumnStore (cb : Segmentio.columnBlock)
| SegmentStore (sf : SegmentFile.segmentFile).

Definition refs (o : object) : Z :=
  match o with
  | ColumnStore cb => RefHelper.Refs (Segmentio.ref cb)
  | SegmentStore sf => RefHelper.Refs (SegmentFile.seg_ref sf)
  end.

Definition step (o : object) (op : refOp) : object * list event :=
  match o with
  | ColumnStore cb => let '(cb, evs) := stepColumn cb op in (ColumnStore cb, evs)
  | SegmentStore sf => let '(sf, evs) := stepSegment sf op in (SegmentStore sf, evs)
  end.

(** The object and the events after the operations [ops], left to right. *)
Fixpoint run (o : object) (ops : list refOp) : object * list event :=
  match ops with
  | [] => (o, [])
  | op :: rest =>
      let '(o, evs) := step o op in
      let '(o, evs') := run o rest in
      (o, evs ++ evs')
  end.




End Lifecycle.

(** ** Concrete objects the properties are run on *)

Module Samples.

Import Segment Segmentio.

(** A file implementation that stores what is written and reads it back. *)
Global Instance storingFile : IRWFile := {|
  indexFile_Write f buf :=
    (Z.of_nat (length buf), None, mkIndex (index_ref f) buf);
  indexFile_Read f buf :=
    (Z.of_nat (length (index_buf f)), None, f, index_buf f) |}.

(** Column 3 of block 7, with two index slots and its base file. *)
Definition sampleColumn : columnBlock :=
  mkColumnBlock (RefHelper.mk 1) 7 0 [newIndex; newIndex] newUpdates
    (set_file (Some [NewBlockFile "3_7.blk"]) newData) 3.

(** A raw handle of 10 bytes, 20 before compression. *)
Definition sampleFile : BlockFile := mkBlockFile "0_1.blk" 10 20 1.

(** Two hash functions for the filter, and a block whose column 0 declares
    two index slots and one whose column 0 declares a single slot. *)
Definition sampleHashes : list (Z -> N) :=
  [fun k => Z.to_N (k mod 7); fun k => Z.to_N ((3 * k + 1) mod 11)].

Definition sampleBlock : SealedBlock.block :=
  SealedBlock.mkSealed {[0 := 2]} ∅ None.

Definition oneSlotBlock : SealedBlock.block :=
  SealedBlock.mkSealed {[0 := 1]} ∅ None.

(** A block whose slot 0 of column 0 holds the zone map of the keys 1 to
    50. *)
Definition zonedBlock : SealedBlock.block :=
  SealedBlock.mkSealed {[0 := 2]}
    {[(0, 0) := SealedBlock.PZoneMap (Some (SealedBlock.mkZoneMap 1 50))]} None.

(** A translation that keeps every reader error as it is. *)
Definition keepError (err : error) : error := err.

End Samples.

(** ** Further operations of the stores *)

(** What file names are made of: the strings that are all decimal digits,
    and the strings a given character does not occur in. *)
Module Names.

Fixpoint allDigits (s : string) : bool :=
  match s with
  | EmptyString => true
  | String c s => bool_decide (is_Some (Strconv.digit c)) && allDigits s
  end.

Fixpoint lacks (c0 : Ascii.ascii) (s : string) : bool :=
  match s with
  | EmptyString => true
  | String c s => bool_decide (c <> c0) && lacks c0 s
  end.

End Names.

Module Versions.

Import Segment Segmentio.

(** [WriteTS] for each timestamp of [tss], left to right. *)
Fixpoint writeVersions (cb : columnBlock) (tss : list Z) : columnBlock * list event :=
  match tss with
  | [] => (cb, [])
  | t :: rest =>
      let '(_, cb, evs) := WriteTS cb t in
      let '(cb, evs') := writeVersions cb rest in
      (cb, evs ++ evs')
  end.

(** The names of the raw files a trace creates, and the raw files it
    releases. *)
Definition created (evs : list event) : list string :=
  omap (fun ev => match ev with EvNewBlockFile fname => Some fname | _ => None end) evs.

Definition released (evs : list event) : list BlockFile :=
  omap (fun ev => match ev with EvReleaseFile f => Some f | _ => None end) evs.

End Versions.

Module SegmentOps.

Import Segment Segmentio SegmentFile.

Definition RemoveBlock (sf : segmentFile) (bid : Z) : segmentFile :=
  match blocks sf !! bid with
  | None => sf
  | Some _ => set_blocks (delete bid (blocks sf)) sf
  end.

Section OpenBlock.

(** [newBlock] is not in the source: [OpenBlock] is embedded over any
    constructor, which returns the block it built and the raw-store calls
    it made, or panics. *)
Variable newBlock : Z -> Z -> gmap Z Z -> go blockFile * list event.

Definition OpenBlock (sf : segmentFile) (bid colCnt : Z) (indexCnt : gmap Z Z)
  : go (blockFile * segmentFile) * list event :=
  match blocks sf !! bid with
  | Some bf => (Return (bf, sf), [])
  | None =>
      match newBlock bid colCnt indexCnt with
      | (Return bf, evs) => (Return (bf, set_blocks (<[bid := bf]> (blocks sf)) sf), evs)
      | (Panic msg, evs) => (Panic msg, evs)
      end
  end.

End OpenBlock.

Definition WriteTS (sf : segmentFile) (t : Z) : option error * segmentFile :=
  (None, mkSegmentFile (seg_ref sf) (segmentID sf) t (blocks sf) (seg_name sf)).

Definition ReadTS (sf : segmentFile) : Z := seg_ts sf.

(** The column store [cb'] is [cb] with files appended and the timestamp
    raised or kept: what replay may do to a column store. *)
Definition extendsColumn (cb cb' : columnBlock) : Prop :=
  ref cb' = ref cb /\ block_id cb' = block_id cb /\ col cb' = col cb /\
  indexes cb' = indexes cb /\ updates cb' = updates cb /\
  data_ref (data cb') = data_ref (data cb) /\
  ts cb <= ts cb' /\
  default [] (file (data cb)) `prefix_of` default [] (file (data cb')).

Definition extendsBlock (bf bf' : blockFile) : Prop :=
  id bf' = id bf /\ Forall2 extendsColumn (columns bf) (columns bf').

Definition extendsSegment (sf sf' : segmentFile) : Prop :=
  seg_ref sf' = seg_ref sf /\ segmentID sf' = segmentID sf /\
  seg_ts sf' = seg_ts sf /\ seg_name sf' = seg_name sf /\
  forall (bid : Z) (bf : blockFile),
    blocks sf !! bid = Some bf ->
    exists bf', blocks sf' !! bid = Some bf' /\ extendsBlock bf bf'.

(** The column store after replay has read the raw file [f], named with
    the timestamp [t] if it is a versioned file. *)
Definition replayed (cb : columnBlock) (f : BlockFile) (t : option Z) : columnBlock :=
  let d := set_stat (mkStat (fileSize f) (originSize f) (algo f) (name f))
             (set_file (Some (default [] (file (data cb)) ++ [f])) (data cb)) in
  let cb := set_data d cb in
  match t with
  | Some t => if ts cb <? t then set_ts t cb else cb
  | None => cb
  end.

End SegmentOps.

(** ** Package plan: range check of a constant against a column type *)

Module Plan.

(** The two error classes [rangeCheck] raises, with the message. *)
Inductive errno : Type :=
| DatatypeMismatch
| DataException.

Record planError : Type := mkPlanError { code : errno; msg : string }.

(** [types.T], the type ids [rangeCheck] tells apart; any other id is
    [T_other]. *)
Inductive T : Type :=
| T_int8 | T_int16 | T_int32 | T_int64
| T_uint8 | T_uint16 | T_uint32 | T_uint64
| T_float32 | T_float64
| T_char | T_varchar
| T_other (oid : Z).

(** [types.Type], as far as [rangeCheck] reads it. *)
Record Typ : Type := mkTyp { Oid : T; Width : Z }.

Section RangeCheck.

(** Floating point is kept abstract: the two float types, the test
    [v <= math.MaxFloat32 && v >= -math.MaxFloat32] and the conversion
    [float32(v)]. *)
Variables float32 float64 : Type.
Variable inFloat32Range : float64 -> bool.
Variable toFloat32 : float64 -> float32.

(** The dynamic type of an [interface{}] value; [Other] is any type the
    type switch does not name, the nil interface included. *)
Inductive value : Type :=
| Int8 (v : Z) | Int16 (v : Z) | Int32 (v : Z) | Int64 (v : Z)
| Uint8 (v : Z) | Uint16 (v : Z) | Uint32 (v : Z) | Uint64 (v : Z)
| Float32 (v : float32) | Float64 (v : float64)
| Str (v : string)
| Date (v : Z) | Datetime (v : Z) | Timestamp (v : Z)
| Decimal64 (v : Z) | Decimal128 (lo hi : Z)
| Bool (v : bool)
| Other (tag : Z).

Definition unexpected : planError :=
  mkPlanError DatatypeMismatch "unexpected type and value".

(** fmt.Sprintf("Out of range value for column '%s' at row %d", ...) *)
Definition outOfRange (columnName : string) (rowNumber : Z) : planError :=
  mkPlanError DataException
    ("Out of range value for column '" +:+ columnName +:+ "' at row " +:+ pretty rowNumber).

Definition tooLong (columnName : string) (rowNumber : Z) : planError :=
  mkPlanError DataException
    ("Data too long for column '" +:+ columnName +:+ "' at row " +:+ pretty rowNumber).

Definition rangeCheck (val : value) (typ : Typ) (columnName : string) (rowNumber : Z)
  : planError + value :=
  match val with
  | Int64 v =>
      match Oid typ with
      | T_int8 =>
          if (v <=? 127) && (v >=? -128) then inr (Int8 v)
          else inl (outOfRange columnName rowNumber)
      | T_int16 =>
          if (v <=? 32767) && (v >=? -32768) then inr (Int16 v)
          else inl (outOfRange columnName rowNumber)
      | T_int32 =>
          if (v <=? 2147483647) && (v >=? -2147483648) then inr (Int32 v)
          else inl (outOfRange columnName rowNumber)
      | T_int64 => inr (Int64 v)
      | _ => inl unexpected
      end
  | Uint64 v =>
      match Oid typ with
      | T_uint8 =>
          if v <=? 255 then inr (Uint8 v) else inl (outOfRange columnName rowNumber)
      | T_uint16 =>
          if v <=? 65535 then inr (Uint16 v) else inl (outOfRange columnName rowNumber)
      | T_uint32 =>
          if v <=? 4294967295 then inr (Uint32 v) else inl (outOfRange columnName rowNumber)
      | T_uint64 => inr (Uint64 v)
      | _ => inl unexpected
      end
  | Float32 v =>
      match Oid typ with
      | T_float32 => inr (Float32 v)
      | _ => inl unexpected
      end
  | Float64 v =>
      match Oid typ with
      | T_float32 =>
          if inFloat32Range v then inr (Float32 (toFloat32 v))
          else inl (outOfRange columnName rowNumber)
      | T_float64 => inr (Float64 v)
      | _ => inl unexpected
      end
  | Str v =>
      match Oid typ with
      | T_char | T_varchar =>
          if Z.of_nat (String.length v) >? 65535 then
            inl (mkPlanError DataException
                   "length out of uint16 is unexpected for char / varchar value")
          else if Z.of_nat (String.length v) <=? Width typ then inr (Str v)
          else inl (tooLong columnName rowNumber)
      | _ => inl unexpected
      end
  | Date _ | Datetime _ | Timestamp _ | Decimal64 _ | Decimal128 _ _ | Bool _ => inr val
  | _ => inl unexpected
  end.

(** The number an integer value carries. *)
Definition intOf (val : value) : option Z :=
  match val with
  | Int8 v | Int16 v | Int32 v | Int64 v
  | Uint8 v | Uint16 v | Uint32 v | Uint64 v => Some v
  | _ => None
  end.

(** The values of the integer column types. *)
Definition intRange (t : T) : option (Z * Z) :=
  match t with
  | T_int8 => Some (-2 ^ 7, 2 ^ 7 - 1)
  | T_int16 => Some (-2 ^ 15, 2 ^ 15 - 1)
  | T_int32 => Some (-2 ^ 31, 2 ^ 31 - 1)
  | T_int64 => Some (-2 ^ 63, 2 ^ 63 - 1)
  | T_uint8 => Some (0, 2 ^ 8 - 1)
  | T_uint16 => Some (0, 2 ^ 16 - 1)
  | T_uint32 => Some (0, 2 ^ 32 - 1)
  | T_uint64 => Some (0, 2 ^ 64 - 1)
  | _ => None
  end.

(** The column type an integer value is declared with. *)
Definition typeOf (val : value) : option T :=
  match val with
  | Int8 _ => Some T_int8 | Int16 _ => Some T_int16
  | Int32 _ => Some T_int32 | Int64 _ => Some T_int64
  | Uint8 _ => Some T_uint8 | Uint16 _ => Some T_uint16
  | Uint32 _ => Some T_uint32 | Uint64 _ => Some T_uint64
  | _ => None
  end.

End RangeCheck.

Arguments Int8 {float32 float64} v.
Arguments Int16 {float32 float64} v.
Arguments Int32 {float32 float64} v.
Arguments Int64 {float32 float64} v.
Arguments Uint8 {float32 float64} v.
Arguments Uint16 {float32 float64} v.
Arguments Uint32 {float32 float64} v.
Arguments Uint64 {float32 float64} v.
Arguments Float32 {float32 float64} v.
Arguments Float64 {float32 float64} v.
Arguments Str {float32 float64} v.
Arguments Date {float32 float64} v.
Arguments Datetime {float32 float64} v.
Arguments Timestamp {float32 float64} v.
Arguments Decimal64 {float32 float64} v.
Arguments Decimal128 {float32 float64} lo hi.
Arguments Bool {float32 float64} v.
Arguments Other {float32 float64} tag.
Arguments rangeCheck {float32 float64} inFloat32Range toFloat32 val typ columnName rowNumber.
Arguments intOf {float32 float64} val.
Arguments typeOf {float32 float64} val.

(** An integer constant as the planner hands it to [rangeCheck]: an
    [int64] or a [uint64]. *)
Definition constant {float32 float64 : Type} (signed : bool) (v : Z)
  : value float32 float64 :=
  if signed then Int64 v else Uint64 v.

(** Whether an integer column type is signed; [None] for the other
    types. *)
Definition signedness (t : T) : option bool :=
  match t with
  | T_int8 | T_int16 | T_int32 | T_int64 => Some true
  | T_uint8 | T_uint16 | T_uint32 | T_uint64 => Some false
  | _ => None
  end.

End Plan.

(** ** Further concrete objects *)

Module MoreSamples.

Import Segment Segmentio SegmentFile Samples.

(** Column [c] of block 7, opened for replay, without index slots. *)
Definition plainColumn (c : Z) : columnBlock :=
  mkColumnBlock (RefHelper.mk 1) 7 0 [] newUpdates (set_file (Some []) newData) c.

(** Block 7 with four columns, the last one [sampleColumn], and a segment
    store that holds it. *)
Definition sampleBlockFile : blockFile :=
  mkBlock 7 [plainColumn 0; plainColumn 1; plainColumn 2; sampleColumn].

Definition sampleSegment : segmentFile :=
  set_blocks {[7 := sampleBlockFile]} (openSegment "seg" 1).

(** A block constructor that builds a block without columns. *)
Definition bareBlock (bid colCnt : Z) (indexCnt : gmap Z Z) : go blockFile * list event :=
  (Return (mkBlock bid []), [EvLog "new block"]).

(** A sealed block whose metadata names an index kind the engine does not
    read. *)
Definition otherKindBlock : SealedBlock.block :=
  SealedBlock.mkSealed {[0 := 2]} ∅
    (Some (Indexwrapper.mkIndicesMeta
             [Indexwrapper.mkIndexMeta (Indexwrapper.OtherIndex 9) 0 0])).

(** Floats reduced to one value, for the integer and string checks. *)
Definition anyFloat32 (v : unit) : bool := true.
Definition narrow (v : unit) : unit := v.

End MoreSamples.

(** * Verified properties *)

(** ** Column store *)

Section ColumnStore.

Import Segment Segmentio Samples.

(** C3.  [OpenUpdateFile] counts one more reference on the update-log file,
    but the handle it returns is the data file, whose count it leaves as it
    was: the caller holds a reference on one file and a handle to
    another. *)
Theorem OpenUpdateFile_returns_data_handle (cb : columnBlock) :
  let '(vfile, err, cb') := OpenUpdateFile cb in
  vfile = Some RefData /\ vfile <> Some RefUpdates /\ err = None /\
  RefHelper.Refs (updates_ref (updates cb')) =
    RefHelper.Refs (updates_ref (updates cb)) + 1 /\
  data cb' = data cb.
Proof.
  destruct cb as [r bid t idxs u d c]; simpl.
  repeat split; congruence.
Qed.

(** The sibling path: [OpenDataFile] returns the file it counted. *)
Lemma OpenDataFile_returns_data_handle (cb : columnBlock) :
  let '(vfile, err, cb') := OpenDataFile cb in
  vfile = Some RefData /\ err = None /\
  RefHelper.Refs (data_ref (data cb')) = RefHelper.Refs (data_ref (data cb)) + 1.
Proof. destruct cb; simpl; auto. Qed.

(** C4, the claim at a column store opened for replay: it has no base file,
    and [WriteTS] appends to its sequence all the same. *)
Lemma WriteTS_appends_without_base_file :
  match openColumnBlock 1 2 0 with
  | Return cb =>
      file (data cb) = Some [] /\
      file (data (WriteTS cb 5).1.2) = Some [NewBlockFile "0_1_5.blk"]
  | Panic _ => False
  end.
Proof. vm_compute. split; reflexivity. Qed.

(** C4, amended.  [WriteTS] appends the versioned file [<col>_<block>_<ts>.blk]
    whenever the data-file sequence is not nil, with or without a base
    file, and leaves a nil sequence nil; both constructors build a non-nil
    sequence, so after [openColumnBlock] the sequence is empty and
    [WriteTS] makes it one file long. *)
Theorem WriteTS_appends_unless_nil (cb : columnBlock) (t : Z) :
  file (data (WriteTS cb t).1.2) =
    (fun fs => fs ++ [NewBlockFile (versionName (col cb) (block_id cb) t)])
      <$> file (data cb) /\
  forall bid indexCnt c : Z,
    match openColumnBlock bid indexCnt c with
    | Return cb0 =>
        file (data cb0) = Some [] /\
        file (data (WriteTS cb0 t).1.2) = Some [NewBlockFile (versionName c bid t)]
    | Panic _ => indexCnt < 0
    end.
Proof.
  split.
  - unfold WriteTS. destruct cb as [r bid t0 idxs u [dr [fs|] st] c]; reflexivity.
  - intros bid indexCnt c. unfold openColumnBlock.
    destruct (Z.ltb_spec indexCnt 0) as [Hneg|Hpos]; [exact Hneg|].
    split; reflexivity.
Qed.

(** C7.  A slot at or past the declared slot count makes [WriteIndex] and
    [ReadIndex] return [ErrInvalidParam] with the column store (and the
    caller's buffer) as they were and without any call to the file,
    whatever the file implementation. *)
Theorem index_slot_out_of_range `{IRWFile} (cb : columnBlock) (idx : Z) (buf : list byte) :
  Z.of_nat (length (indexes cb)) <= idx ->
  WriteIndex cb idx buf = (Return (Some ErrInvalidParam, cb), []) /\
  ReadIndex cb idx buf = (Return (Some ErrInvalidParam, cb, buf), []).
Proof.
  intros Hge. unfold WriteIndex, ReadIndex.
  destruct (Z.geb_spec idx (Z.of_nat (length (indexes cb)))) as [_|Hlt]; [|lia].
  split; reflexivity.
Qed.

(** C8.  On a non-nil data-file sequence [WriteTS] returns no error, makes
    the sequence one entry longer, keeps every earlier entry at its
    position, and [ReadTS] then returns the timestamp written. *)
Theorem WriteTS_append_only (cb : columnBlock) (fs : list BlockFile) (t : Z) :
  file (data cb) = Some fs ->
  let '(err, cb', _) := WriteTS cb t in
  err = None /\
  (exists fs', file (data cb') = Some fs' /\
     length fs' = S (length fs) /\
     forall (i : nat) (f : BlockFile), fs !! i = Some f -> fs' !! i = Some f) /\
  ReadTS cb' = t.
Proof.
  intros Hfs. unfold WriteTS.
  destruct cb as [r bid t0 idxs u [dr fs0 st] c]; simpl in *. subst fs0.
  split; [reflexivity|]. split; [|reflexivity].
  eexists; split; [reflexivity|]. split.
  - rewrite length_app; simpl; lia.
  - intros i f Hi. by apply lookup_app_l_Some.
Qed.

Lemma index_slot_out_of_range_witness :
  Z.of_nat (length (indexes sampleColumn)) <= 2 /\
  WriteIndex sampleColumn 2 [x01; x02]%byte =
    (Return (Some ErrInvalidParam, sampleColumn), []) /\
  ReadIndex sampleColumn 2 [x01; x02]%byte =
    (Return (Some ErrInvalidParam, sampleColumn, [x01; x02]%byte), []).
Proof.
  assert (Hslot : Z.of_nat (length (indexes sampleColumn)) <= 2) by (simpl; lia).
  split; [exact Hslot|].
  exact (index_slot_out_of_range sampleColumn 2 [x01; x02]%byte Hslot).
Defined.

Lemma WriteTS_append_only_witness :
  file (data sampleColumn) = Some [NewBlockFile "3_7.blk"] /\
  let '(err, cb', _) := WriteTS sampleColumn 9 in
  err = None /\
  (exists fs', file (data cb') = Some fs' /\
     length fs' = S (length [NewBlockFile "3_7.blk"]) /\
     forall (i : nat) (f : BlockFile),
       [NewBlockFile "3_7.blk"] !! i = Some f -> fs' !! i = Some f) /\
  ReadTS cb' = 9.
Proof.
  split; [reflexivity|].
  exact (WriteTS_append_only sampleColumn [NewBlockFile "3_7.blk"] 9 eq_refl).
Defined.

(** In range the file is reached: the guard is the only path without I/O. *)
Example WriteIndex_in_range :
  WriteIndex sampleColumn 1 [x2a]%byte =
    (Return (None, set_indexes [newIndex; mkIndex (RefHelper.mk 1) [x2a]%byte] sampleColumn),
     [EvIndexWrite 1 [x2a]%byte]).
Proof. reflexivity. Qed.

End ColumnStore.

(** ** Reference counting *)

Section RefCount.

Import Segment Segmentio Lifecycle Samples.













(** Both constructors leave the count at 1; [Close] releases a column store
    and leaves a segment store as it is. *)
Lemma constructors_start_at_one (id indexCnt c : Z) (sname : string) :
  0 <= indexCnt ->
  (exists cb evs, newColumnBlock id indexCnt c = (Return cb, evs) /\ refs (ColumnStore cb) = 1) /\
  (exists cb, openColumnBlock id indexCnt c = Return cb /\ refs (ColumnStore cb) = 1) /\
  refs (SegmentStore (SegmentFile.openSegment sname id)) = 1 /\
  forall sf, step (SegmentStore sf) OpClose = (SegmentStore sf, []).
Proof.
  intros Hcnt. unfold newColumnBlock, openColumnBlock.
  destruct (Z.ltb_spec indexCnt 0); [lia|].
  repeat split; eauto.
Qed.

End RefCount.

(** ** Segment replay *)

Section SegmentReplay.

Import Segment Segmentio SegmentFile Samples.

Lemma splitFrom_nonempty (sep : string) (s : string) (skip : nat) (cur : string) :
  Strings.splitFrom sep skip cur s <> [].
Proof.
  revert skip cur. induction s as [|c s IH]; intros skip cur; [by intros [=]|].
  cbn [Strings.splitFrom]. destruct skip as [|n]; [|apply IH].
  destruct (String.prefix sep (String c s)); [by intros [=]|apply IH].
Qed.

(** A name the loop passes over leaves the segment store as it was. *)
Lemma replayNode_skipped (colCnt : Z) (indexCnt : gmap Z Z)
    (sf : segmentFile) (fname : string) (f : BlockFile) :
  skipped fname = true ->
  replayNode colCnt indexCnt sf (fname, f) = Return (Continue sf).
Proof.
  unfold skipped, fields, replayNode.
  destruct (Strings.Split fname ".blk") as [|tmp0 tmp] eqn:Hsplit.
  - by apply splitFrom_nonempty in Hsplit.
  - by intros ->.
Qed.

(** A name with a block field that is no unsigned 32-bit number aborts. *)
Lemma replayNode_bad_block_id (colCnt : Z) (indexCnt : gmap Z Z)
    (sf : segmentFile) (fname f1 : string) (f : BlockFile) (err : error) :
  fields fname !! 1%nat = Some f1 ->
  Strconv.ParseUint f1 32 = inl err ->
  replayNode colCnt indexCnt sf (fname, f) = Return (Abort err sf).
Proof.
  unfold fields, replayNode.
  destruct (Strings.Split fname ".blk") as [|tmp0 tmp]; [done|].
  destruct (Strings.Split tmp0 "_") as [|f0 [|f1' rest]]; [done..|].
  simpl. intros [= ->] ->.
  destruct (Z.ltb_spec (Z.of_nat (S (S (length rest)))) 2); [lia|reflexivity].
Qed.

Lemma replayNodes_cons (colCnt : Z) (indexCnt : gmap Z Z)
    (node : string * BlockFile) (nodes : list (string * BlockFile)) (sf : segmentFile) :
  replayNodes colCnt indexCnt sf (node :: nodes) =
  match replayNode colCnt indexCnt sf node with
  | Return (Continue sf) => replayNodes colCnt indexCnt sf nodes
  | Return (Abort err sf) => Return (Some err, sf)
  | Panic msg => Panic msg
  end.
Proof.
  simpl. destruct (replayNode colCnt indexCnt sf node) as [[sf'|err sf']|msg]; reflexivity.
Qed.

Lemma replayNodes_filter (colCnt : Z) (indexCnt : gmap Z Z)
    (nodes : list (string * BlockFile)) (sf : segmentFile) :
  replayNodes colCnt indexCnt sf nodes =
  replayNodes colCnt indexCnt sf (filter (fun node => skipped node.1 = false) nodes).
Proof.
  revert sf. induction nodes as [|[fname f] nodes IH]; intros sf; [reflexivity|].
  destruct (skipped fname) eqn:Hskip.
  - rewrite filter_cons_False by (simpl; congruence).
    rewrite replayNodes_cons, (replayNode_skipped _ _ _ _ _ Hskip). apply IH.
  - rewrite filter_cons_True by done.
    rewrite !replayNodes_cons.
    destruct (replayNode colCnt indexCnt sf (fname, f)) as [[sf'|err sf']|msg];
      [apply IH|reflexivity..].
Qed.

(** C5, the claim at a name that has its separator but no numbers: replay
    returns the parse error of the block field, and the well-formed name
    after it in the listing is not replayed. *)
Lemma Replay_aborts_on_unparsable_name :
  skipped "a_b.blk" = false /\
  Replay (openSegment "seg" 1) 1 ∅ None
    [("a_b.blk", sampleFile); ("0_1.blk", sampleFile)] =
  Return (Some (ErrSyntax "ParseUint" "b"), openSegment "seg" 1).
Proof. split; vm_compute; reflexivity. Qed.

(** C5, amended.  Replay passes over every name with fewer than two
    [_]-separated fields before [.blk]: such a name changes nothing and
    raises no error, and the replay of a listing is the replay of the
    listing without these names.  A name with two or more fields whose
    block field is not an unsigned 32-bit decimal number aborts the replay
    with that parse error. *)
Theorem Replay_skips_names_without_separator (sf : segmentFile) (colCnt : Z)
    (indexCnt : gmap Z Z) (segReplay : option error) (nodes : list (string * BlockFile)) :
  Replay sf colCnt indexCnt segReplay nodes =
    Replay sf colCnt indexCnt segReplay (filter (fun node => skipped node.1 = false) nodes) /\
  (forall (fname : string) (f : BlockFile),
     skipped fname = true ->
     replayNode colCnt indexCnt sf (fname, f) = Return (Continue sf)) /\
  (forall (fname f1 : string) (f : BlockFile) (err : error),
     fields fname !! 1%nat = Some f1 ->
     Strconv.ParseUint f1 32 = inl err ->
     replayNode colCnt indexCnt sf (fname, f) = Return (Abort err sf)).
Proof.
  split; [|split].
  - unfold Replay. destruct segReplay; [reflexivity|apply replayNodes_filter].
  - intros fname f. apply replayNode_skipped.
  - intros fname f1 f err. apply replayNode_bad_block_id.
Qed.

(** A listing with a name without separator between two data files of
    column 0 of block 1: both files are replayed, the timestamp is raised
    to the versioned file's. *)
Example Replay_passes_over_meta :
  match Replay (openSegment "seg" 1) 1 ∅ None
          [("0_1.blk", sampleFile); ("meta", sampleFile); ("0_1_5.blk", sampleFile)] with
  | Return (None, sf) =>
      (fun bf => (fun cb => (ts cb, length <$> file (data cb))) <$> columns bf)
        <$> blocks sf !! 1 = Some [(5, Some 2%nat)]
  | _ => False
  end.
Proof. vm_compute. reflexivity. Qed.

End SegmentReplay.

(** ** Immutable index *)

Section ImmutableIndex.

Import Indexwrapper Jobs SealedBlock Samples.

Variable TranslateError : error -> error.

(** C10.  [BatchDedup] returns the same selection, the same error and makes
    the same reader calls for any two row masks: the mask reaches neither
    reader. *)
Theorem BatchDedup_ignores_rowmask (index : immutableIndex) (keys : list Z)
    (rowmask1 rowmask2 : bitmap) :
  BatchDedup TranslateError index keys rowmask1 =
  BatchDedup TranslateError index keys rowmask2.
Proof. reflexivity. Qed.

(** C2.  With the zone map [z] in the slot the zone-map reader is bound to,
    a key below [zm_min z] or above [zm_max z] makes [Dedup] return nil
    after the one call to the zone-map reader: the bloom-filter reader,
    whichever it is (even a nil one), is not called. *)
Theorem Dedup_fast_reject (w : block) (f : Z * Z) (id : ID) (z : ZoneMap)
    (bf : option BFReader) (key : Z) :
  files w !! f = Some (PZoneMap (Some z)) ->
  key < zm_min z \/ zm_max z < key ->
  Dedup TranslateError (mkImmutableIndex (Some (newZMReader f id w)) bf) key =
    (Return None, [EvZMContains key]) /\
  forall key', EvBFMayContainsKey key' ∉ [EvZMContains key].
Proof.
  intros Hfile Hout. split.
  - unfold Dedup, newZMReader. simpl. rewrite Hfile. simpl.
    replace ((zm_min z <=? key) && (key <=? zm_max z)) with false; [reflexivity|].
    symmetry. apply andb_false_iff. rewrite !Z.leb_gt. lia.
  - intros key' [Heq|Hin]%elem_of_cons; [discriminate|by apply elem_of_nil in Hin].
Qed.

Lemma zmUpdate_keeps (zm : option ZoneMap) (v k : Z) :
  zmContains zm k = true -> zmContains (zmUpdate zm v) k = true.
Proof.
  destruct zm as [z|]; simpl; [|discriminate].
  rewrite !andb_true_iff, !Z.leb_le. lia.
Qed.

Lemma zmUpdate_adds (zm : option ZoneMap) (v : Z) :
  zmContains (zmUpdate zm v) v = true.
Proof.
  destruct zm as [z|]; simpl; rewrite andb_true_iff, !Z.leb_le; lia.
Qed.

(** The zone map built over [vs] contains every value of [vs]. *)
Lemma zmBuild_contains (vs : list Z) (zm : option ZoneMap) (k : Z) :
  k ∈ vs \/ zmContains zm k = true -> zmContains (zmBuild zm vs) k = true.
Proof.
  revert zm. induction vs as [|v vs IH]; intros zm [Hin|Hzm]; simpl.
  - by apply elem_of_nil in Hin.
  - exact Hzm.
  - apply IH. apply elem_of_cons in Hin as [->|Hin]; [right|by left].
    apply zmUpdate_adds.
  - apply IH. right. by apply zmUpdate_keeps.
Qed.

(** The bounds are exact: a key below every value and below the bounds so
    far, or above them all, is outside the zone map built. *)
Lemma zmBuild_rejects (vs : list Z) (zm : option ZoneMap) (k : Z) :
  (forall v, v ∈ vs -> k < v) \/ (forall v, v ∈ vs -> v < k) ->
  match zm with
  | None => True
  | Some z => (forall v, v ∈ vs -> k < v) /\ k < zm_min z \/
              (forall v, v ∈ vs -> v < k) /\ zm_max z < k
  end ->
  zmContains (zmBuild zm vs) k = false.
Proof.
  revert zm. induction vs as [|v vs IH]; intros zm Hvs Hzm; simpl.
  - destruct zm as [z|]; simpl; [|reflexivity].
    apply andb_false_iff. rewrite !Z.leb_gt. destruct Hzm as [[_ ?]|[_ ?]]; lia.
  - apply IH.
    + destruct Hvs as [Hvs|Hvs]; [left|right]; intros u Hu; apply Hvs, elem_of_cons; by right.
    + assert (Hhead : v ∈ v :: vs) by (apply elem_of_cons; by left).
      assert (Htail : forall u, u ∈ vs -> u ∈ v :: vs)
        by (intros u Hu; apply elem_of_cons; by right).
      destruct zm as [z|]; simpl.
      * destruct Hzm as [[Hlt Hz]|[Hgt Hz]]; [left|right];
          (split; [by intros u Hu; auto|]); [specialize (Hlt v Hhead)|specialize (Hgt v Hhead)]; lia.
      * destruct Hvs as [Hlt|Hgt]; [left|right];
          (split; [by intros u Hu; auto|]); [apply (Hlt v Hhead)|apply (Hgt v Hhead)].
Qed.

Section NoFalseNegative.

Variable hashes : list (Z -> N).

Lemma bfBuild_mono (vs : list Z) (bits : gset N) : bits ⊆ bfBuild hashes bits vs.
Proof.
  revert bits. induction vs as [|v vs IH]; intros bits; simpl; [done|].
  etrans; [|apply IH]. unfold bfAdd. set_solver.
Qed.

Lemma bfBuild_sets_bits (vs : list Z) (bits : gset N) (k : Z) (h : Z -> N) :
  k ∈ vs -> h ∈ hashes -> h k ∈ bfBuild hashes bits vs.
Proof.
  revert bits. induction vs as [|v vs IH]; intros bits Hk Hh; simpl.
  - by apply elem_of_nil in Hk.
  - apply elem_of_cons in Hk as [->|Hk]; [|by apply IH].
    apply (bfBuild_mono vs). unfold bfAdd.
    apply elem_of_union_r, elem_of_list_to_set, list_elem_of_fmap. eauto.
Qed.

(** No false negative: the filter built over [vs] answers "may be present"
    for every value of [vs]. *)
Lemma bfTest_built (vs : list Z) (bits : gset N) (k : Z) :
  k ∈ vs -> bfTest hashes (bfBuild hashes bits vs) k = true.
Proof.
  intros Hk. unfold bfTest. apply forallb_forall. intros h Hh.
  apply bool_decide_eq_true. apply bfBuild_sets_bits; [done|].
  by apply list_elem_of_In.
Qed.

(** What the builder leaves on a block whose primary-key column declares
    the two index slots, and the index [ReadFrom] makes of it. *)
Lemma build_then_read (w : block) (pk : Z) (V : list Z) :
  2 <= default 0 (slotCount w !! pk) ->
  exists (w1 : block) (tr : list event),
    BuildAndFlushBlockIndex (io := blockIO hashes) pk V (w, []) = (None, (w1, tr)) /\
    files w1 !! (pk, 0) = Some (PZoneMap (zmBuild None V)) /\
    files w1 !! (pk, 1) = Some (PFilter (bfBuild hashes ∅ V)) /\
    ReadFrom (io := blockIO hashes) NewImmutableIndex pk w1 =
      (Return (None,
               mkImmutableIndex
                 (Some (newZMReader (pk, 0) (mkID 1000 (uint16 pk)) w1))
                 (Some (newBFReader hashes (pk, 1) (mkID 1001 (uint16 pk)) w1))),
       w1).
Proof.
  intros Hslots.
  unfold BuildAndFlushBlockIndex, jbind, call, callErr; simpl.
  unfold openIndexFile; simpl.
  destruct (Z.geb_spec 0 (default 0 (slotCount w !! pk))) as [?|_]; [lia|]. simpl.
  destruct (Z.geb_spec 1 (default 0 (slotCount w !! pk))) as [?|_]; [lia|]. simpl.
  do 2 eexists. split; [reflexivity|]. simpl.
  split; [by rewrite lookup_insert_ne, lookup_insert_eq by congruence|].
  split; [by rewrite lookup_insert_eq|].
  unfold ReadFrom, readMetas; simpl. unfold openIndexFile; simpl.
  destruct (Z.geb_spec 0 (default 0 (slotCount w !! pk))) as [?|_]; [lia|]. simpl.
  destruct (Z.geb_spec 1 (default 0 (slotCount w !! pk))) as [?|_]; [lia|].
  reflexivity.
Qed.

(** C1.  On a block whose primary-key column declares at least the two
    index slots, the builder run over the values [V] succeeds, [ReadFrom]
    then builds an index from what the builder wrote, and on that index
    [Dedup] returns [ErrPossibleDuplicate] for every key of [V]. *)
Theorem Dedup_no_false_negative (w : block) (pk : Z) (V : list Z) (key : Z) :
  2 <= default 0 (slotCount w !! pk) ->
  key ∈ V ->
  exists (w1 : block) (tr : list event) (index : immutableIndex) (w2 : block),
    BuildAndFlushBlockIndex (io := blockIO hashes) pk V (w, []) = (None, (w1, tr)) /\
    ReadFrom (io := blockIO hashes) NewImmutableIndex pk w1 = (Return (None, index), w2) /\
    (Dedup TranslateError index key).1 = Return (Some ErrPossibleDuplicate).
Proof.
  intros Hslots Hkey.
  destruct (build_then_read w pk V Hslots) as (w1 & tr & Hbuild & Hzm & Hbf & Hread).
  exists w1, tr. do 2 eexists. split; [exact Hbuild|]. split; [exact Hread|].
  unfold Dedup, newZMReader, newBFReader; simpl. rewrite Hzm, Hbf. simpl.
  rewrite zmBuild_contains by by left. simpl.
  by rewrite bfTest_built.
Qed.

(** The fast reject on the index of a built block: a key below every value
    of [V], or above every value, is answered by the zone-map reader
    alone. *)
Lemma built_index_fast_reject (w : block) (pk : Z) (V : list Z) (key : Z) :
  2 <= default 0 (slotCount w !! pk) ->
  (forall v, v ∈ V -> key < v) \/ (forall v, v ∈ V -> v < key) ->
  exists (w1 : block) (tr : list event) (index : immutableIndex) (w2 : block),
    BuildAndFlushBlockIndex (io := blockIO hashes) pk V (w, []) = (None, (w1, tr)) /\
    ReadFrom (io := blockIO hashes) NewImmutableIndex pk w1 = (Return (None, index), w2) /\
    Dedup TranslateError index key = (Return None, [EvZMContains key]).
Proof.
  intros Hslots Hout.
  destruct (build_then_read w pk V Hslots) as (w1 & tr & Hbuild & Hzm & Hbf & Hread).
  exists w1, tr. do 2 eexists. split; [exact Hbuild|]. split; [exact Hread|].
  unfold Dedup, newZMReader; simpl. rewrite Hzm.
  by rewrite (zmBuild_rejects V None key Hout I).
Qed.

End NoFalseNegative.

End ImmutableIndex.

(** ** Index builder *)

Section IndexBuilder.

Import Indexwrapper Jobs Recording.

Context `{io : BlockIO W ColFile IdxFile MetaBuf ZMW BFW}.

(** The run stopped at the step [st], the [n]-th of the program order. *)
Local Ltac stopped_at n st :=
  exists (take n jobSteps), st; simpl;
  split; [reflexivity|];
  split; [by eexists|];
  rewrite ?elem_of_cons, elem_of_nil; intros Hin;
  repeat (destruct Hin as [Hin|Hin]; [discriminate Hin|]); exact Hin.

(** The collaborators' record of a run that their [n]-th call ended. *)
Local Ltac failed_call n :=
  left;
  match goal with |- exists done c, ?log = _ /\ _ => exists (take n log) end;
  eexists; simpl; split; [reflexivity|];
  split; [repeat constructor|];
  split; [by eexists|];
  simpl; rewrite ?elem_of_cons, elem_of_nil; intros Hin;
  repeat (destruct Hin as [Hin|Hin]; [discriminate Hin|]); exact Hin.

(** The state of a run that an error ended, through the calls made. *)
Local Ltac kept :=
  intros Inv (K1 & K2 & K3 & K4 & K5 & K6 & K7 & K8) Kw H0; eauto 40.

Local Ltac stop n m st :=
  split; [stopped_at n st|];
  split; [eexists; split; [reflexivity|]; failed_call m|kept].

(** C6.  Any failure at any step aborts the job and returns that first
    error, and the metadata write is the last step, so that a failed build
    leaves no metadata behind.  For every implementation of the
    collaborators and from every state:
    - the calls the collaborators received ([recording]) are the calls of
      the program order up to the first that failed and none after it;
      every call before it succeeded, the error returned is the error of
      that call (or of [Marshal], after the nine calls before
      [WriteIndexMeta] succeeded), and [WriteIndexMeta] is not among the
      calls that succeeded;
    - a run that returns nil made all ten calls, and what [WriteIndexMeta]
      persisted is [Marshal] of the two descriptors the [Finalize] calls
      returned, the zone map's first;
    - the final state is the one these calls left, so whatever part of the
      state only a successful [WriteIndexMeta] changes is, after a run that
      returns an error, as it was before the run;
    - the steps the run reports agree with the above. *)
Theorem BuildAndFlushBlockIndex_atomic (pk : Z) (pkColumnData : list Z) (w : W) :
  let '(err, (w', tr)) := BuildAndFlushBlockIndex pk pkColumnData (w, []) in
  match err with
  | Some e =>
      exists (done : list jobStep) (st : jobStep),
        tr = succeeded done ++ [EvJob st (Some e)] /\
        (done ++ [st]) `prefix_of` jobSteps /\
        WriteIndexMetaStep ∉ done
  | None => tr = succeeded jobSteps
  end /\
  (exists log : record,
      BuildAndFlushBlockIndex (io := recording) pk pkColumnData ((w, []), []) =
        (err, ((w', log), tr)) /\
      match err with
      | Some e =>
          (exists (done : record) (c : call),
              log = done ++ [(c, Failed e)] /\
              Forall (fun en => failed en.2 = false) done /\
              (done.*1 ++ [c]) `prefix_of` builderCalls pk pkColumnData /\
              WriteIndexMetaCall ∉ done.*1) \/
          (exists zmMeta sfMeta : IndexMeta,
              log = zip (builderCalls pk pkColumnData) (indexesBuilt zmMeta sfMeta) /\
              Marshal (metasOf zmMeta sfMeta) = inl e)
      | None =>
          exists (zmMeta sfMeta : IndexMeta) (metaBuf : MetaBuf),
            Marshal (metasOf zmMeta sfMeta) = inr metaBuf /\
            log = zip (builderCalls pk pkColumnData)
                      (indexesBuilt zmMeta sfMeta ++ [Wrote metaBuf])
      end) /\
  (forall Inv : W -> Prop,
      keptByIndexCalls Inv ->
      match err with
      | Some _ => keptByFailedWrite Inv -> Inv w -> Inv w'
      | None => True
      end).
Proof.
  unfold BuildAndFlushBlockIndex, jbind, Jobs.call, callErr; simpl.
  destruct (OpenColumn pk w) as [[e|pkColumn] w1] eqn:H1; simpl.
  { stop 0%nat 0%nat OpenColumnStep. }
  destruct (OpenIndexFile pkColumn 0 w1) as [[e|zmFile] w2] eqn:H2; simpl.
  { stop 1%nat 1%nat OpenZMFileStep. }
  destruct (ZMInit NewZMWriter zmFile (uint16 pk) 0 w2) as [[[e|] zw1] w3] eqn:H3; simpl.
  { stop 2%nat 2%nat ZMInitStep. }
  destruct (ZMAddValues zw1 pkColumnData w3) as [[[e|] zw2] w4] eqn:H4; simpl.
  { stop 3%nat 3%nat ZMAddValuesStep. }
  destruct (ZMFinalize zw2 w4) as [[e|zmMeta] w5] eqn:H5; simpl.
  { stop 4%nat 4%nat ZMFinalizeStep. }
  destruct (OpenIndexFile pkColumn 1 w5) as [[e|sfFile] w6] eqn:H6; simpl.
  { stop 5%nat 5%nat OpenSFFileStep. }
  destruct (BFInit NewBFWriter sfFile (uint16 pk) 1 w6) as [[[e|] bw1] w7] eqn:H7; simpl.
  { stop 6%nat 6%nat BFInitStep. }
  destruct (BFAddValues bw1 pkColumnData w7) as [[[e|] bw2] w8] eqn:H8; simpl.
  { stop 7%nat 7%nat BFAddValuesStep. }
  destruct (BFFinalize bw2 w8) as [[e|sfMeta] w9] eqn:H9; simpl.
  { stop 8%nat 8%nat BFFinalizeStep. }
  destruct (Marshal _) as [e|metaBuf] eqn:H10; simpl.
  { split; [stopped_at 9%nat MarshalStep|].
    split; [|kept].
    eexists; split; [reflexivity|].
    right. exists zmMeta, sfMeta. split; [reflexivity|exact H10]. }
  destruct (WriteIndexMeta metaBuf w9) as [[e|] w10] eqn:H11; simpl.
  { stop 10%nat 9%nat WriteIndexMetaStep. }
  split; [reflexivity|].
  split; [|intros; exact I].
  eexists; split; [reflexivity|].
  exists zmMeta, sfMeta, metaBuf. split; [exact H10|reflexivity].
Qed.

End IndexBuilder.

(** On the sealed block: a failed run leaves the index-metadata blob as it
    was, a successful run leaves the two descriptors, zone map first. *)
Lemma sealed_build_meta (hashes : list (Z -> N)) (w : SealedBlock.block)
    (pk : Z) (pkColumnData : list Z) :
  let '(err, (w1, _)) :=
    Jobs.BuildAndFlushBlockIndex (io := SealedBlock.blockIO hashes) pk pkColumnData (w, []) in
  match err with
  | Some _ => SealedBlock.indexMeta w1 = SealedBlock.indexMeta w
  | None =>
      SealedBlock.indexMeta w1 =
        Some (Indexwrapper.mkIndicesMeta
                [Indexwrapper.mkIndexMeta Indexwrapper.BlockZoneMapIndex (Jobs.uint16 pk) 0;
                 Indexwrapper.mkIndexMeta Indexwrapper.StaticFilterIndex (Jobs.uint16 pk) 1])
  end.
Proof.
  unfold Jobs.BuildAndFlushBlockIndex, Jobs.jbind, Jobs.call, Jobs.callErr; simpl.
  unfold SealedBlock.openIndexFile; simpl.
  destruct (0 >=? default 0 (SealedBlock.slotCount w !! pk)); simpl; [reflexivity|].
  destruct (1 >=? default 0 (SealedBlock.slotCount w !! pk)); reflexivity.
Qed.

(** ** The properties on concrete objects *)

Import Segment Segmentio SegmentFile Indexwrapper Jobs SealedBlock Samples.

Lemma Replay_skips_names_without_separator_witness :
  skipped "meta" = true /\
  Strconv.ParseUint "b" 32 = inl (ErrSyntax "ParseUint" "b") /\
  replayNode 1 ∅ (openSegment "seg" 1) ("meta", sampleFile) =
    Return (Continue (openSegment "seg" 1)) /\
  replayNode 1 ∅ (openSegment "seg" 1) ("a_b.blk", sampleFile) =
    Return (Abort (ErrSyntax "ParseUint" "b") (openSegment "seg" 1)).
Proof.
  destruct (Replay_skips_names_without_separator (openSegment "seg" 1) 1 ∅ None [])
    as (_ & Hskip & Habort).
  split; [reflexivity|]. split; [reflexivity|]. split.
  - apply Hskip. reflexivity.
  - apply (Habort "a_b.blk" "b"); reflexivity.
Defined.

Lemma Dedup_fast_reject_witness :
  files zonedBlock !! (0, 0) = Some (PZoneMap (Some (mkZoneMap 1 50))) /\
  (100 < 1 \/ 50 < 100) /\
  Dedup keepError (mkImmutableIndex (Some (newZMReader (0, 0) (mkID 1000 0) zonedBlock)) None) 100 =
    (Return None, [EvZMContains 100]) /\
  forall key', EvBFMayContainsKey key' ∉ [EvZMContains 100].
Proof.
  assert (Hfile : files zonedBlock !! (0, 0) = Some (PZoneMap (Some (mkZoneMap 1 50))))
    by reflexivity.
  assert (Hout : 100 < zm_min (mkZoneMap 1 50) \/ zm_max (mkZoneMap 1 50) < 100)
    by (right; reflexivity).
  split; [exact Hfile|]. split; [right; reflexivity|].
  exact (Dedup_fast_reject keepError zonedBlock (0, 0) (mkID 1000 0) (mkZoneMap 1 50) None 100
           Hfile Hout).
Defined.

Lemma Dedup_no_false_negative_witness :
  2 <= default 0 (slotCount sampleBlock !! 0) /\
  5 ∈ [1; 5; 10; 50] /\
  exists (w1 : block) (tr : list event) (index : immutableIndex) (w2 : block),
    BuildAndFlushBlockIndex (io := blockIO sampleHashes) 0 [1; 5; 10; 50] (sampleBlock, []) =
      (None, (w1, tr)) /\
    ReadFrom (io := blockIO sampleHashes) NewImmutableIndex 0 w1 = (Return (None, index), w2) /\
    (Dedup keepError index 5).1 = Return (Some ErrPossibleDuplicate).
Proof.
  assert (Hslots : 2 <= default 0 (slotCount sampleBlock !! 0)) by (vm_compute; discriminate).
  assert (Hkey : 5 ∈ [1; 5; 10; 50]) by (apply elem_of_cons; right; apply elem_of_cons; by left).
  split; [exact Hslots|]. split; [exact Hkey|].
  exact (Dedup_no_false_negative keepError sampleHashes sampleBlock 0 [1; 5; 10; 50] 5 Hslots Hkey).
Defined.

(** The scenario of the keys 1, 5, 10, 50: the zone map is [1, 50]; 100 is
    rejected by the zone map alone, 5 is a possible duplicate, 7 is inside
    the range and absent from the filter, and 8, inside the range and no
    key of the block either, is a false positive of this filter. *)
Example Dedup_scenario :
  let '(err, (w1, _)) :=
    BuildAndFlushBlockIndex (io := blockIO sampleHashes) 0 [1; 5; 10; 50] (sampleBlock, []) in
  err = None /\
  files w1 !! (0, 0) = Some (PZoneMap (Some (mkZoneMap 1 50))) /\
  match ReadFrom (io := blockIO sampleHashes) NewImmutableIndex 0 w1 with
  | (Return (None, index), _) =>
      Dedup keepError index 100 = (Return None, [EvZMContains 100]) /\
      Dedup keepError index 5 =
        (Return (Some ErrPossibleDuplicate), [EvZMContains 5; EvBFMayContainsKey 5]) /\
      Dedup keepError index 7 = (Return None, [EvZMContains 7; EvBFMayContainsKey 7]) /\
      (Dedup keepError index 8).1 = Return (Some ErrPossibleDuplicate)
  | _ => False
  end.
Proof. vm_compute. repeat split. Qed.

(** The builder on a column with a single index slot: the zone map is
    written to slot 0, opening slot 1 fails, the error is returned and the
    index-metadata blob stays unwritten. *)
Example BuildAndFlushBlockIndex_second_slot_missing :
  let '(err, (w1, tr)) :=
    BuildAndFlushBlockIndex (io := blockIO sampleHashes) 0 [1; 5; 10; 50] (oneSlotBlock, []) in
  err = Some ErrInvalidParam /\
  tr = succeeded [OpenColumnStep; OpenZMFileStep; ZMInitStep; ZMAddValuesStep; ZMFinalizeStep]
         ++ [EvJob OpenSFFileStep (Some ErrInvalidParam)] /\
  files w1 !! (0, 0) = Some (PZoneMap (Some (mkZoneMap 1 50))) /\
  indexMeta w1 = None.
Proof. vm_compute. repeat split. Qed.

(** The builder on a column with a single index slot, as the sealed block
    sees it: the block received the calls up to the opening of slot 1,
    which failed, and no call after it; no method but [WriteIndexMeta]
    writes the index-metadata blob, and the block has none after the run. *)
Lemma BuildAndFlushBlockIndex_atomic_witness :
  Recording.keptByIndexCalls (io := blockIO sampleHashes) (fun w => indexMeta w = None) /\
  Recording.keptByFailedWrite (io := blockIO sampleHashes) (fun w => indexMeta w = None) /\
  indexMeta oneSlotBlock = None /\
  exists (w' : block) (tr : list event) (log : @Recording.record IndicesMeta),
    BuildAndFlushBlockIndex (io := blockIO sampleHashes) 0 [1; 5; 10; 50] (oneSlotBlock, []) =
      (Some ErrInvalidParam, (w', tr)) /\
    BuildAndFlushBlockIndex (io := Recording.recording (io := blockIO sampleHashes))
        0 [1; 5; 10; 50] ((oneSlotBlock, []), []) =
      (Some ErrInvalidParam, ((w', log), tr)) /\
    log.*1 = [Recording.OpenColumnCall 0; Recording.OpenIndexFileCall 0; Recording.ZMInitCall 0 0;
              Recording.ZMAddValuesCall [1; 5; 10; 50]; Recording.ZMFinalizeCall;
              Recording.OpenIndexFileCall 1] /\
    indexMeta w' = None.
Proof.
  assert (K : Recording.keptByIndexCalls (io := blockIO sampleHashes)
                (fun w => indexMeta w = None)).
  { repeat split; simpl.
    - intros c w r w' [= <- <-]; auto.
    - intros c slot w r w'. unfold openIndexFile.
      destruct (slot >=? _); intros [= <- <-]; auto.
    - intros zw f c slot w r w' [= <- <-]; auto.
    - intros zw vs w r w' [= <- <-]; auto.
    - intros zw w r w'. unfold zmFinalize.
      destruct (zw_target zw) as [[[f c] slot]|]; intros [= <- <-]; auto.
    - intros bw f c slot w r w' [= <- <-]; auto.
    - intros bw vs w r w' [= <- <-]; auto.
    - intros bw w r w'. unfold bfFinalize.
      destruct (bw_target bw) as [[[f c] slot]|]; intros [= <- <-]; auto. }
  assert (Kw : Recording.keptByFailedWrite (io := blockIO sampleHashes)
                 (fun w => indexMeta w = None)).
  { intros buf w err w' Hw. discriminate Hw. }
  assert (H0 : indexMeta oneSlotBlock = None) by reflexivity.
  split; [exact K|]. split; [exact Kw|]. split; [exact H0|].
  pose proof (BuildAndFlushBlockIndex_atomic (io := blockIO sampleHashes)
                0 [1; 5; 10; 50] oneSlotBlock) as Hrun.
  destruct (BuildAndFlushBlockIndex (io := blockIO sampleHashes) 0 [1; 5; 10; 50]
              (oneSlotBlock, [])) as [[e|] [w' tr]] eqn:E;
    [|vm_compute in E; discriminate E].
  destruct Hrun as (_ & (log & Hlog & _) & Hinv).
  assert (He : e = ErrInvalidParam) by (vm_compute in E; congruence).
  subst e.
  exists w', tr, log.
  split; [reflexivity|]. split; [exact Hlog|].
  split; [|exact (Hinv _ K Kw H0)].
  vm_compute in Hlog. injection Hlog as _ <- _. reflexivity.
Defined.

(** * Further properties *)

(** ** File names *)

Section FileNames.

Import Segment Segmentio SegmentFile Names.

Lemma append_cons (c : Ascii.ascii) (s1 s2 : string) :
  String c s1 +:+ s2 = String c (s1 +:+ s2).
Proof. reflexivity. Qed.

Lemma append_nil_r (s : string) : s +:+ "" = s.
Proof. induction s as [|c s IH]; [reflexivity|]. by rewrite append_cons, IH. Qed.

Lemma append_assoc (s1 s2 s3 : string) : (s1 +:+ s2) +:+ s3 = s1 +:+ (s2 +:+ s3).
Proof. induction s1 as [|c s1 IH]; [reflexivity|]. by rewrite !append_cons, IH. Qed.

Lemma lacks_append (c0 : Ascii.ascii) (s1 s2 : string) :
  lacks c0 (s1 +:+ s2) = lacks c0 s1 && lacks c0 s2.
Proof.
  induction s1 as [|c s1 IH]; [reflexivity|].
  rewrite append_cons. cbn [lacks]. rewrite IH. by rewrite andb_assoc.
Qed.

Lemma allDigits_append (s1 s2 : string) :
  allDigits (s1 +:+ s2) = allDigits s1 && allDigits s2.
Proof.
  induction s1 as [|c s1 IH]; [reflexivity|].
  rewrite append_cons. cbn [allDigits]. rewrite IH. by rewrite andb_assoc.
Qed.

Lemma allDigits_lacks (c0 : Ascii.ascii) (s : string) :
  Strconv.digit c0 = None -> allDigits s = true -> lacks c0 s = true.
Proof.
  intros Hc0. induction s as [|c s IH]; [reflexivity|]. cbn.
  intros [Hc Hs]%andb_prop. rewrite IH by done. rewrite andb_true_r.
  apply bool_decide_eq_true. intros ->. apply bool_decide_eq_true in Hc.
  rewrite Hc0 in Hc. by destruct Hc.
Qed.

Lemma digit_pretty_char (d : N) :
  (d < 10)%N -> Strconv.digit (pretty_N_char d) = Some (Z.of_N d).
Proof.
  intros Hd.
  assert (d = 0 \/ d = 1 \/ d = 2 \/ d = 3 \/ d = 4 \/ d = 5 \/ d = 6 \/ d = 7 \/
          d = 8 \/ d = 9)%N as Hcases by lia.
  repeat (destruct Hcases as [->|Hcases]; [reflexivity|]). by subst.
Qed.

(** The printer puts a run of digits in front of what it is given. *)
Lemma pretty_N_go_digits (x : N) (s : string) :
  exists p, pretty_N_go x s = p +:+ s /\ allDigits p = true /\ ((0 < x)%N -> p <> "").
Proof.
  revert s. induction (N.lt_wf_0 x) as [x _ IH]; intros s.
  destruct (decide (x = 0%N)) as [->|Hx].
  - exists "". rewrite pretty_N_go_0. split; [reflexivity|]. split; [reflexivity|]. lia.
  - rewrite pretty_N_go_step by lia.
    destruct (IH (x `div` 10)%N ltac:(apply N.div_lt; lia)
                (String (pretty_N_char (x `mod` 10)) s)) as (p & -> & Hp & _).
    exists (p +:+ String (pretty_N_char (x `mod` 10)) "").
    split; [by rewrite append_assoc|]. split.
    + rewrite allDigits_append, Hp. cbn.
      rewrite digit_pretty_char by (apply N.mod_lt; lia). reflexivity.
    + intros _. destruct p; discriminate.
Qed.

(** Reading back what the printer wrote. *)
Lemma parseDigits_pretty_N_go (maxVal : Z) (s0 : string) (x : N) (s : string) :
  Z.of_N x <= maxVal ->
  Strconv.parseDigits maxVal s0 0 (pretty_N_go x s) =
  Strconv.parseDigits maxVal s0 (Z.of_N x) s.
Proof.
  revert s. induction (N.lt_wf_0 x) as [x _ IH]; intros s Hmax.
  destruct (decide (x = 0%N)) as [->|Hx]; [by rewrite pretty_N_go_0|].
  rewrite pretty_N_go_step by lia.
  assert (x = 10 * (x `div` 10) + x `mod` 10)%N as Hdiv by (apply N.div_mod; lia).
  assert (x `mod` 10 < 10)%N as Hmod by (apply N.mod_lt; lia).
  assert (x `div` 10 < x)%N as Hlt by (apply N.div_lt; lia).
  rewrite IH by (done || lia).
  cbn [Strconv.parseDigits]. rewrite digit_pretty_char by done.
  replace (Z.of_N (x `div` 10) * 10 + Z.of_N (x `mod` 10)) with (Z.of_N x) by lia.
  destruct (Z.gtb_spec (Z.of_N x) maxVal); [lia|reflexivity].
Qed.

Lemma pretty_Z_cases (z : Z) :
  0 <= z ->
  z = 0 /\ pretty z = "0" \/
  (0 < Z.to_N z)%N /\ pretty z = pretty_N_go (Z.to_N z) "".
Proof.
  destruct z as [|p|p]; intros Hz; [by left| |lia].
  right. split; [simpl; lia|]. reflexivity.
Qed.

(** Decimal round trip: [ParseUint] reads a printed number back, when the
    number fits the bit size. *)
Lemma ParseUint_pretty (z bitSize : Z) :
  0 <= z < 2 ^ bitSize -> Strconv.ParseUint (pretty z) bitSize = inr z.
Proof.
  intros [Hz Hmax].
  destruct (pretty_Z_cases z Hz) as [[-> ->]|[Hpos ->]].
  - assert (Strconv.digit (pretty_N_char 0) = Some 0) as Hd by reflexivity.
    unfold Strconv.ParseUint. cbn [Strconv.parseDigits].
    change (Strconv.digit _) with (Strconv.digit (pretty_N_char 0)). rewrite Hd.
    change (0 * 10 + 0) with 0.
    destruct (Z.gtb_spec 0 (2 ^ bitSize - 1)); [lia|reflexivity].
  - destruct (pretty_N_go_digits (Z.to_N z) "") as (p & Hp & _ & Hne).
    unfold Strconv.ParseUint.
    destruct (pretty_N_go (Z.to_N z) "") as [|c s] eqn:Hs.
    + rewrite append_nil_r in Hp. subst p. by destruct Hne.
    + rewrite <- Hs. rewrite parseDigits_pretty_N_go by lia.
      cbn. f_equal. lia.
Qed.

Lemma allDigits_pretty (z : Z) : 0 <= z -> allDigits (pretty z) = true.
Proof.
  intros Hz. destruct (pretty_Z_cases z Hz) as [[-> ->]|[_ ->]]; [reflexivity|].
  destruct (pretty_N_go_digits (Z.to_N z) "") as (p & -> & Hp & _).
  by rewrite append_nil_r.
Qed.

Lemma prefix_append (sep s : string) : String.prefix sep (sep +:+ s) = true.
Proof.
  induction sep as [|c sep IH]; [by destruct s|].
  rewrite append_cons. simpl. by destruct (Ascii.ascii_dec c c).
Qed.

Lemma splitFrom_skip (sep : string) (t : string) (cur s : string) :
  Strings.splitFrom sep (String.length t) cur (t +:+ s) = Strings.splitFrom sep 0 cur s.
Proof. induction t as [|c t IH]; [reflexivity|]. rewrite append_cons. simpl. apply IH. Qed.

(** A field without the first character of the separator is read whole. *)
Lemma splitFrom_lacks (c0 : Ascii.ascii) (sep' : string) (a cur s : string) :
  lacks c0 a = true ->
  Strings.splitFrom (String c0 sep') 0 cur (a +:+ s) =
  Strings.splitFrom (String c0 sep') 0 (cur +:+ a) s.
Proof.
  revert cur. induction a as [|c a IH]; intros cur Ha.
  - by rewrite append_nil_r.
  - cbn [lacks] in Ha. apply andb_prop in Ha as [Hc Ha]. apply bool_decide_eq_true in Hc.
    rewrite append_cons. cbn [Strings.splitFrom String.prefix].
    destruct (Ascii.ascii_dec c0 c) as [->|_]; [done|].
    rewrite IH by done. by rewrite append_assoc.
Qed.

(** At a separator the field ends and the next one starts after it. *)
Lemma splitFrom_sep (c0 : Ascii.ascii) (sep' : string) (cur s : string) :
  Strings.splitFrom (String c0 sep') 0 cur (String c0 sep' +:+ s) =
  cur :: Strings.splitFrom (String c0 sep') 0 "" s.
Proof.
  pose proof (prefix_append (String c0 sep') s) as Hpre.
  rewrite append_cons in *. cbn [Strings.splitFrom]. rewrite Hpre.
  cbn [String.length]. rewrite Nat.sub_1_r. cbn [Nat.pred].
  by rewrite splitFrom_skip.
Qed.

Lemma Split_field_sep (c0 : Ascii.ascii) (sep' : string) (a cur s : string) :
  lacks c0 a = true ->
  Strings.splitFrom (String c0 sep') 0 cur (a +:+ String c0 sep' +:+ s) =
  (cur +:+ a) :: Strings.splitFrom (String c0 sep') 0 "" s.
Proof. intros Ha. by rewrite splitFrom_lacks, splitFrom_sep. Qed.

Lemma Split_last_field (c0 : Ascii.ascii) (sep' : string) (a cur : string) :
  lacks c0 a = true ->
  Strings.splitFrom (String c0 sep') 0 cur a = [cur +:+ a].
Proof.
  intros Ha. rewrite <- (append_nil_r a) at 1. by rewrite splitFrom_lacks.
Qed.

(** The fields of the name of a base file are its column and its block. *)
Lemma fields_baseName (c bid : Z) :
  0 <= c -> 0 <= bid -> fields (baseName c bid) = [pretty c; pretty bid].
Proof.
  intros Hc Hbid. unfold fields, baseName, Strings.Split.
  pose proof (allDigits_pretty c Hc) as Hdc.
  pose proof (allDigits_pretty bid Hbid) as Hdb.
  replace (pretty c +:+ "_" +:+ pretty bid +:+ ".blk")
    with ((pretty c +:+ "_" +:+ pretty bid) +:+ ".blk" +:+ "")
    by (by rewrite !append_assoc, append_nil_r).
  rewrite Split_field_sep.
  - cbn [app]. change ("" +:+ ?s) with s.
    rewrite Split_field_sep by (by apply allDigits_lacks).
    rewrite Split_last_field by (by apply allDigits_lacks). reflexivity.
  - rewrite !lacks_append. cbn [lacks].
    rewrite !allDigits_lacks by (reflexivity || assumption). reflexivity.
Qed.

Lemma fields_versionName (c bid t : Z) :
  0 <= c -> 0 <= bid -> 0 <= t ->
  fields (versionName c bid t) = [pretty c; pretty bid; pretty t].
Proof.
  intros Hc Hbid Ht. unfold fields, versionName, Strings.Split.
  pose proof (allDigits_pretty c Hc) as Hdc.
  pose proof (allDigits_pretty bid Hbid) as Hdb.
  pose proof (allDigits_pretty t Ht) as Hdt.
  replace (pretty c +:+ "_" +:+ pretty bid +:+ "_" +:+ pretty t +:+ ".blk")
    with ((pretty c +:+ "_" +:+ pretty bid +:+ "_" +:+ pretty t) +:+ ".blk" +:+ "")
    by (by rewrite !append_assoc, append_nil_r).
  rewrite Split_field_sep.
  - change ("" +:+ ?s) with s.
    rewrite !Split_field_sep by (by apply allDigits_lacks).
    rewrite Split_last_field by (by apply allDigits_lacks). reflexivity.
  - rewrite !lacks_append. cbn [lacks].
    rewrite !allDigits_lacks by (reflexivity || assumption). reflexivity.
Qed.

(** The file-name round trip of a base file: replay puts the raw file named
    as [newColumnBlock] names the base file of column [c] of block [bid]
    at the end of the data-file sequence of that column of that block,
    records its stat, and changes no timestamp, no other column and no
    other block. *)
Theorem Replay_reads_base_file (sf : segmentFile) (colCnt : Z) (indexCnt : gmap Z Z)
    (c bid : Z) (f : BlockFile) (bf : blockFile) (cb : columnBlock) :
  0 <= c < 2 ^ 32 -> 0 <= bid < 2 ^ 32 ->
  blocks sf !! bid = Some bf ->
  columns bf !! Z.to_nat c = Some cb ->
  exists (sf' : segmentFile) (bf' : blockFile) (cb' : columnBlock),
    Replay sf colCnt indexCnt None [(baseName c bid, f)] = Return (None, sf') /\
    blocks sf' !! bid = Some bf' /\
    columns bf' !! Z.to_nat c = Some cb' /\
    file (data cb') = Some (default [] (file (data cb)) ++ [f]) /\
    ts cb' = ts cb /\
    GetDataFileStat cb' = mkStat (fileSize f) (originSize f) (algo f) (name f) /\
    (forall bid', bid' <> bid -> blocks sf' !! bid' = blocks sf !! bid') /\
    (forall i, i <> Z.to_nat c -> columns bf' !! i = columns bf !! i).
Proof.
  intros Hc Hbid Hblock Hcol.
  pose proof (fields_baseName c bid ltac:(lia) ltac:(lia)) as Hfields.
  unfold Replay, replayNodes, replayNode. unfold fields in Hfields.
  destruct (Strings.Split (baseName c bid) ".blk") as [|tmp0 tmp]; [discriminate|].
  rewrite Hfields. cbn [length lookup list_lookup].
  change (Z.of_nat 2 <? 2) with false. cbn iota.
  rewrite !ParseUint_pretty by done. rewrite Hblock. cbn [mbind go_bind].
  rewrite Hcol. unfold replayColumn. cbn [length].
  change (2 <? Z.of_nat 2) with false. cbn iota. cbn [mbind go_bind].
  assert (Z.to_nat c < length (columns bf))%nat by (by eapply lookup_lt_Some).
  do 3 eexists. split; [reflexivity|]. cbn [blocks set_blocks columns].
  split; [apply lookup_insert_eq|]. cbn [columns].
  split; [by apply list_lookup_insert_eq|].
  split; [reflexivity|]. split; [reflexivity|]. split; [reflexivity|]. split.
  - intros bid' Hne. by rewrite !lookup_insert_ne.
  - intros i Hne. by rewrite list_lookup_insert_ne.
Qed.

(** The file-name round trip of a versioned file: replay puts the raw file
    named as [WriteTS] names the version [t] of column [c] of block [bid]
    at the end of the data-file sequence of that column, and raises the
    column's timestamp to [t] when it was below. *)
Theorem Replay_reads_versioned_file (sf : segmentFile) (colCnt : Z) (indexCnt : gmap Z Z)
    (c bid t : Z) (f : BlockFile) (bf : blockFile) (cb : columnBlock) :
  0 <= c < 2 ^ 32 -> 0 <= bid < 2 ^ 32 -> 0 <= t < 2 ^ 64 ->
  blocks sf !! bid = Some bf ->
  columns bf !! Z.to_nat c = Some cb ->
  exists (sf' : segmentFile) (bf' : blockFile) (cb' : columnBlock),
    Replay sf colCnt indexCnt None [(versionName c bid t, f)] = Return (None, sf') /\
    blocks sf' !! bid = Some bf' /\
    columns bf' !! Z.to_nat c = Some cb' /\
    file (data cb') = Some (default [] (file (data cb)) ++ [f]) /\
    ts cb' = Z.max (ts cb) t /\
    GetDataFileStat cb' = mkStat (fileSize f) (originSize f) (algo f) (name f) /\
    (forall bid', bid' <> bid -> blocks sf' !! bid' = blocks sf !! bid') /\
    (forall i, i <> Z.to_nat c -> columns bf' !! i = columns bf !! i).
Proof.
  intros Hc Hbid Ht Hblock Hcol.
  pose proof (fields_versionName c bid t ltac:(lia) ltac:(lia) ltac:(lia)) as Hfields.
  unfold Replay, replayNodes, replayNode. unfold fields in Hfields.
  destruct (Strings.Split (versionName c bid t) ".blk") as [|tmp0 tmp]; [discriminate|].
  rewrite Hfields. cbn [length lookup list_lookup].
  change (Z.of_nat 3 <? 2) with false. cbn iota.
  rewrite !ParseUint_pretty by done. rewrite Hblock. cbn [mbind go_bind].
  rewrite Hcol. unfold replayColumn. cbn [length lookup list_lookup].
  change (2 <? Z.of_nat 3) with true. cbn iota.
  rewrite ParseUint_pretty by done. cbn [mbind go_bind].
  assert (Z.to_nat c < length (columns bf))%nat by (by eapply lookup_lt_Some).
  do 3 eexists. split; [reflexivity|]. cbn [blocks set_blocks columns].
  split; [apply lookup_insert_eq|]. cbn [columns].
  split; [by apply list_lookup_insert_eq|].
  split; [by destruct (ts _ <? t)|]. split.
  { cbn [ts set_data]. destruct (Z.ltb_spec (ts cb) t); cbn [ts set_ts set_data]; lia. }
  split; [by destruct (ts _ <? t)|]. split.
  - intros bid' Hne. by rewrite !lookup_insert_ne.
  - intros i Hne. by rewrite list_lookup_insert_ne.
Qed.

End FileNames.

(** ** Files of a column store *)

Section ColumnFiles.

Import Segment Segmentio Versions Samples.

(** Opening an index-slot file: in range, [OpenIndexFile] returns the handle
    of that slot and counts one more reference on that slot's file only,
    leaving the other slots, the data and update files and the column's
    own count and timestamp as they were; at or past the slot count it
    returns [ErrInvalidParam] and changes nothing; a negative slot
    panics. *)
Theorem OpenIndexFile_refs_one_slot (cb : columnBlock) (idx : Z) :
  (forall vfile, 0 <= idx -> indexes cb !! Z.to_nat idx = Some vfile ->
     exists cb',
       OpenIndexFile cb idx = Return (Some (RefIndex idx), None, cb') /\
       indexes cb' !! Z.to_nat idx =
         Some (mkIndex (RefHelper.mk (RefHelper.Refs (index_ref vfile) + 1)) (index_buf vfile)) /\
       (forall i, i <> Z.to_nat idx -> indexes cb' !! i = indexes cb !! i) /\
       length (indexes cb') = length (indexes cb) /\
       data cb' = data cb /\ updates cb' = updates cb /\ ts cb' = ts cb /\ ref cb' = ref cb) /\
  (Z.of_nat (length (indexes cb)) <= idx ->
     OpenIndexFile cb idx = Return (None, Some ErrInvalidParam, cb)) /\
  (idx < 0 -> OpenIndexFile cb idx = Panic "index out of range").
Proof.
  unfold OpenIndexFile. split; [|split].
  - intros vfile Hidx Hslot.
    pose proof (lookup_lt_Some _ _ _ Hslot) as Hlen.
    destruct (Z.geb_spec idx (Z.of_nat (length (indexes cb)))); [lia|].
    destruct (Z.ltb_spec idx 0); [lia|]. rewrite Hslot.
    eexists. split; [reflexivity|]. destruct cb as [r bid t idxs u d c]; cbn in *.
    split; [by apply list_lookup_insert_eq|].
    split; [intros i Hi; by apply list_lookup_insert_ne|].
    split; [apply length_insert|]. done.
  - intros Hge. by destruct (Z.geb_spec idx (Z.of_nat (length (indexes cb)))); [|lia].
  - intros Hneg. destruct (Z.geb_spec idx (Z.of_nat (length (indexes cb)))); [lia|].
    by destruct (Z.ltb_spec idx 0); [|lia].
Qed.

Lemma created_app (evs evs' : list event) :
  created (evs ++ evs') = created evs ++ created evs'.
Proof. apply omap_app. Qed.

Lemma writeVersions_files (tss : list Z) (cb : columnBlock) (fs : list BlockFile) :
  file (data cb) = Some fs ->
  file (data (writeVersions cb tss).1) =
    Some (fs ++ ((fun t => NewBlockFile (versionName (col cb) (block_id cb) t)) <$> tss)) /\
  created (writeVersions cb tss).2 = versionName (col cb) (block_id cb) <$> tss /\
  ts (writeVersions cb tss).1 = default (ts cb) (last tss) /\
  col (writeVersions cb tss).1 = col cb /\
  block_id (writeVersions cb tss).1 = block_id cb.
Proof.
  revert cb fs. induction tss as [|t tss IH]; intros cb fs Hfs.
  - simpl. rewrite app_nil_r. done.
  - cbn [writeVersions]. unfold WriteTS at 1.
    destruct cb as [r bid t0 idxs u [dr fs0 st] c]; cbn in Hfs; subst fs0. cbn -[writeVersions].
    match goal with
    | |- context [writeVersions ?cb1 tss] =>
        destruct (IH cb1 (fs ++ [NewBlockFile (versionName c bid t)]) eq_refl)
          as (Hfiles & Hcreated & Hts & Hcol & Hbid);
        destruct (writeVersions cb1 tss) as [cb2 evs2]
    end.
    cbn in *. rewrite Hfiles, Hcreated, Hts, Hcol, Hbid.
    rewrite <- app_assoc. repeat split; try done.
    rewrite last_cons. by destruct (last tss).
Qed.

Lemma released_Destroy (cb : columnBlock) (fs : list BlockFile) :
  file (data cb) = Some fs -> released (Destroy cb) = fs.
Proof.
  intros Hfs. unfold Destroy. rewrite Hfs.
  change (released (EvLog ?m :: ?l)) with (released l). clear Hfs.
  induction fs as [|f fs IH]; [reflexivity|].
  change (released (EvReleaseFile <$> f :: fs)) with (f :: released (EvReleaseFile <$> fs)).
  by rewrite IH.
Qed.

(** No raw file is left behind: a column store built by [newColumnBlock]
    and versioned by any run of [WriteTS] has created its base file and one
    file per version, named by column, block and timestamp, and [Destroy]
    releases exactly these files, in the order of their creation. *)
Theorem column_releases_what_it_created (bid indexCnt c : Z) (tss : list Z) :
  0 <= indexCnt ->
  exists (cb : columnBlock) (evs0 : list event),
    newColumnBlock bid indexCnt c = (Return cb, evs0) /\
    let '(cb', evs) := writeVersions cb tss in
    created (evs0 ++ evs) = baseName c bid :: (versionName c bid <$> tss) /\
    released (Destroy cb') = NewBlockFile <$> created (evs0 ++ evs) /\
    ReadTS cb' = default 0 (last tss).
Proof.
  intros Hcnt. unfold newColumnBlock.
  destruct (Z.ltb_spec indexCnt 0); [lia|].
  do 2 eexists. split; [reflexivity|].
  match goal with
  | |- context [writeVersions ?cb0 tss] =>
      destruct (writeVersions_files tss cb0 _ eq_refl)
        as (Hfiles & Hcreated & Hts & _ & _);
      destruct (writeVersions cb0 tss) as [cb' evs]
  end.
  cbn [fst snd col block_id ts data file set_file newData] in Hfiles, Hcreated, Hts.
  rewrite created_app, Hcreated. split; [reflexivity|].
  split; [|exact Hts].
  rewrite (released_Destroy _ _ Hfiles), fmap_app, <- list_fmap_compose. reflexivity.
Qed.

End ColumnFiles.

(** ** Blocks of a segment store *)

Section SegmentBlocks.

Import Segment Segmentio SegmentFile SegmentOps Samples.

Lemma ParseUint_nonneg_from (maxVal : Z) (s0 s : string) (n v : Z) :
  0 <= n -> Strconv.parseDigits maxVal s0 n s = inr v -> 0 <= v.
Proof.
  revert n. induction s as [|c s IH]; intros n Hn; cbn [Strconv.parseDigits].
  - intros [= <-]. done.
  - unfold Strconv.digit. destruct (_ && _) eqn:Hd; [|discriminate].
    apply andb_prop in Hd as [Hlo _]. apply Z.leb_le in Hlo.
    destruct (_ >? maxVal); [discriminate|]. apply IH. lia.
Qed.

(** A file of a column the block does not have: when the listing names a
    base file whose column ordinal is at or past the number of columns of
    its (already present) block, replay panics on the column array instead
    of returning an error. *)
Theorem Replay_column_out_of_range_panics (sf : segmentFile) (colCnt : Z)
    (indexCnt : gmap Z Z) (c bid : Z) (f : BlockFile) (bf : blockFile)
    (rest : list (string * BlockFile)) :
  0 <= c < 2 ^ 32 -> 0 <= bid < 2 ^ 32 ->
  blocks sf !! bid = Some bf ->
  Z.of_nat (length (columns bf)) <= c ->
  Replay sf colCnt indexCnt None ((baseName c bid, f) :: rest) = Panic "index out of range".
Proof.
  intros Hc Hbid Hblock Hlen.
  pose proof (fields_baseName c bid ltac:(lia) ltac:(lia)) as Hfields.
  unfold Replay. rewrite replayNodes_cons. unfold replayNode. unfold fields in Hfields.
  destruct (Strings.Split (baseName c bid) ".blk") as [|tmp0 tmp]; [discriminate|].
  rewrite Hfields. cbn [length lookup list_lookup].
  change (Z.of_nat 2 <? 2) with false. cbn iota.
  rewrite !ParseUint_pretty by done. rewrite Hblock. cbn [mbind go_bind].
  rewrite lookup_ge_None_2 by lia. reflexivity.
Qed.

(** An error after the block was created: when the block field of a name
    parses and names a block the store does not have, and the column field
    does not parse, replay returns the parse error, and the segment store
    it leaves behind has the newly built block. *)
Theorem Replay_error_keeps_created_block (sf : segmentFile) (colCnt : Z)
    (indexCnt : gmap Z Z) (fname f0 f1 : string) (more : list string) (f : BlockFile)
    (bid : Z) (bf : blockFile) (err : error) (rest : list (string * BlockFile)) :
  fields fname = f0 :: f1 :: more ->
  Strconv.ParseUint f1 32 = inr bid ->
  blocks sf !! bid = None ->
  replayBlock bid colCnt indexCnt = Return bf ->
  Strconv.ParseUint f0 32 = inl err ->
  Replay sf colCnt indexCnt None ((fname, f) :: rest) =
    Return (Some err, set_blocks (<[bid := bf]> (blocks sf)) sf).
Proof.
  intros Hfields Hbid Hnone Hnew Hcol.
  unfold Replay. rewrite replayNodes_cons. unfold replayNode. unfold fields in Hfields.
  destruct (Strings.Split fname ".blk") as [|tmp0 tmp]; [discriminate|].
  rewrite Hfields. cbn [length lookup list_lookup].
  destruct (Z.ltb_spec (Z.of_nat (S (S (length more)))) 2); [lia|].
  rewrite Hbid, Hnone, Hnew. cbn [mbind go_bind]. rewrite Hcol. reflexivity.
Qed.

Lemma extendsColumn_refl (cb : columnBlock) : extendsColumn cb cb.
Proof. unfold extendsColumn. repeat split; done. Qed.

Lemma extendsColumn_trans (cb1 cb2 cb3 : columnBlock) :
  extendsColumn cb1 cb2 -> extendsColumn cb2 cb3 -> extendsColumn cb1 cb3.
Proof.
  unfold extendsColumn.
  intros (? & ? & ? & ? & ? & ? & ? & ?) (? & ? & ? & ? & ? & ? & ? & ?).
  repeat split; try congruence; try lia. by etrans.
Qed.

Lemma extendsBlock_refl (bf : blockFile) : extendsBlock bf bf.
Proof.
  split; [done|]. apply Forall2_same_length_lookup_2; [done|].
  intros i x y Hx Hy. rewrite Hx in Hy. injection Hy as <-. apply extendsColumn_refl.
Qed.

Lemma extendsBlock_trans (bf1 bf2 bf3 : blockFile) :
  extendsBlock bf1 bf2 -> extendsBlock bf2 bf3 -> extendsBlock bf1 bf3.
Proof.
  intros [Hid1 Hc1] [Hid2 Hc2]. split; [congruence|].
  eapply Forall2_trans; [|exact Hc1|exact Hc2].
  intros x y z. apply extendsColumn_trans.
Qed.

Lemma extendsSegment_refl (sf : segmentFile) : extendsSegment sf sf.
Proof. repeat split; try done. intros bid bf Hbf. eauto using extendsBlock_refl. Qed.

Lemma extendsSegment_trans (sf1 sf2 sf3 : segmentFile) :
  extendsSegment sf1 sf2 -> extendsSegment sf2 sf3 -> extendsSegment sf1 sf3.
Proof.
  intros (? & ? & ? & ? & H12) (? & ? & ? & ? & H23).
  repeat split; try congruence.
  intros bid bf Hbf. destruct (H12 bid bf Hbf) as (bf2 & Hbf2 & He12).
  destruct (H23 bid bf2 Hbf2) as (bf3 & Hbf3 & He23).
  eauto using extendsBlock_trans.
Qed.

Lemma extendsSegment_insert (sf : segmentFile) (bid : Z) (bf : blockFile) :
  (forall bf0, blocks sf !! bid = Some bf0 -> extendsBlock bf0 bf) ->
  extendsSegment sf (set_blocks (<[bid := bf]> (blocks sf)) sf).
Proof.
  intros Hbf. repeat split; try done. cbn [blocks set_blocks].
  intros bid' bf0 Hbf0. destruct (decide (bid' = bid)) as [->|Hne].
  - rewrite lookup_insert_eq. eauto.
  - rewrite lookup_insert_ne by done. eauto using extendsBlock_refl.
Qed.

Lemma replayColumn_extends (cb cb' : columnBlock) (f : BlockFile)
    (fileName : list string) (err : option error) :
  replayColumn cb f fileName = Return (err, cb') -> extendsColumn cb cb'.
Proof.
  unfold replayColumn. cbv zeta.
  assert (extendsColumn cb
            (set_data (set_stat (mkStat (fileSize f) (originSize f) (algo f) (name f))
               (set_file (Some (default [] (file (data cb)) ++ [f])) (data cb))) cb))
    as Hbase.
  { unfold extendsColumn. cbn. repeat split; try done; try lia; by apply prefix_app_r. }
  destruct (2 <? Z.of_nat (length fileName)); [|by intros [= <- <-]].
  destruct (fileName !! 2%nat) as [f2|]; [|discriminate].
  destruct (Strconv.ParseUint f2 64) as [e|t]; [by intros [= <- <-]|].
  intros [= <- <-]. eapply extendsColumn_trans; [exact Hbase|].
  match goal with
  | |- context [?a <? t] => destruct (Z.ltb_spec a t) as [Hlt|_]
  end; [|apply extendsColumn_refl].
  unfold extendsColumn. cbn in *. repeat split; try done. lia.
Qed.

Lemma replayNode_extends (colCnt : Z) (indexCnt : gmap Z Z) (sf : segmentFile)
    (node : string * BlockFile) (s : step) :
  replayNode colCnt indexCnt sf node = Return s ->
  extendsSegment sf match s with Continue sf' => sf' | Abort _ sf' => sf' end.
Proof.
  destruct node as [fname f]. unfold replayNode.
  destruct (Strings.Split fname ".blk") as [|tmp0 tmp]; [discriminate|].
  destruct (_ <? 2); [intros [= <-]; apply extendsSegment_refl|].
  destruct (Strings.Split tmp0 "_" !! 1%nat) as [f1|]; [|discriminate].
  destruct (Strings.Split tmp0 "_" !! 0%nat) as [f0|]; [|discriminate].
  destruct (Strconv.ParseUint f1 32) as [e|bid]; [intros [= <-]; apply extendsSegment_refl|].
  assert (forall bf, match blocks sf !! bid with
                     | Some bf0 => Return bf0
                     | None => replayBlock bid colCnt indexCnt
                     end = Return bf ->
                     extendsSegment sf (set_blocks (<[bid := bf]> (blocks sf)) sf)) as Hfirst.
  { intros bf Hbf. apply extendsSegment_insert. intros bf0 Hbf0. rewrite Hbf0 in Hbf.
    injection Hbf as <-. apply extendsBlock_refl. }
  destruct (match blocks sf !! bid with Some bf0 => Return bf0 | None => _ end)
    as [bf|msg]; [|discriminate].
  specialize (Hfirst bf eq_refl). cbn [mbind go_bind].
  destruct (Strconv.ParseUint f0 32) as [e|c]; [by intros [= <-]|].
  destruct (columns bf !! Z.to_nat c) as [cb|] eqn:Hcb; [|discriminate].
  destruct (replayColumn cb f (Strings.Split tmp0 "_")) as [[err cb']|msg] eqn:Hcol;
    [|discriminate].
  apply replayColumn_extends in Hcol. cbn [mbind go_bind].
  assert (extendsSegment sf
            (set_blocks (<[bid := mkBlock (id bf) (<[Z.to_nat c := cb']> (columns bf))]>
               (blocks (set_blocks (<[bid := bf]> (blocks sf)) sf)))
               (set_blocks (<[bid := bf]> (blocks sf)) sf))) as Hfinal.
  { eapply extendsSegment_trans; [exact Hfirst|]. apply extendsSegment_insert.
    cbn [blocks set_blocks]. rewrite lookup_insert_eq. intros ? [= <-].
    split; [done|]. cbn [columns].
    apply Forall2_same_length_lookup_2; [by rewrite length_insert|].
    intros i x y Hx Hy. destruct (decide (i = Z.to_nat c)) as [->|Hne].
    - rewrite list_lookup_insert_eq in Hy by (by eapply lookup_lt_Some). congruence.
    - rewrite list_lookup_insert_ne in Hy by done.
      rewrite Hx in Hy. injection Hy as <-. apply extendsColumn_refl. }
  destruct err; intros [= <-]; exact Hfinal.
Qed.

(** Replay only extends: whether it ends with an error or not, every block
    the segment store had is still there with the same columns, and each
    column has kept its files, in order, at the start of its sequence, and
    a timestamp that is not lower. *)
Theorem Replay_only_extends (sf sf' : segmentFile) (colCnt : Z) (indexCnt : gmap Z Z)
    (segReplay err : option error) (nodes : list (string * BlockFile)) :
  Replay sf colCnt indexCnt segReplay nodes = Return (err, sf') ->
  extendsSegment sf sf'.
Proof.
  unfold Replay. destruct segReplay; [intros [= <- <-]; apply extendsSegment_refl|].
  revert sf. induction nodes as [|node nodes IH]; intros sf.
  - intros [= <- <-]. apply extendsSegment_refl.
  - rewrite replayNodes_cons.
    destruct (replayNode colCnt indexCnt sf node) as [[sf1|e sf1]|msg] eqn:Hnode;
      [| |discriminate]; apply replayNode_extends in Hnode.
    + intros Hrest. eapply extendsSegment_trans; [exact Hnode|by apply IH].
    + intros [= <- <-]. exact Hnode.
Qed.

(** Opening a block twice: when [OpenBlock] returns, the block is stored
    under its id and no other entry has changed; opening the same id again
    returns the stored block and an unchanged store without calling the
    constructor, whatever column count and index-slot counts it is given
    the second time. *)
Theorem OpenBlock_builds_once (newBlock newBlock' : Z -> Z -> gmap Z Z -> go blockFile * list event)
    (sf sf1 : segmentFile) (bid colCnt colCnt' : Z) (indexCnt indexCnt' : gmap Z Z)
    (bf : blockFile) (evs : list event) :
  OpenBlock newBlock sf bid colCnt indexCnt = (Return (bf, sf1), evs) ->
  blocks sf1 !! bid = Some bf /\
  (forall bid', bid' <> bid -> blocks sf1 !! bid' = blocks sf !! bid') /\
  OpenBlock newBlock' sf1 bid colCnt' indexCnt' = (Return (bf, sf1), []).
Proof.
  unfold OpenBlock. destruct (blocks sf !! bid) as [bf0|] eqn:Hbf.
  - intros [= <- <- <-]. rewrite Hbf. done.
  - destruct (newBlock bid colCnt indexCnt) as [[bf1|msg] evs1]; [|discriminate].
    intros [= <- <- <-]. cbn [blocks set_blocks]. rewrite lookup_insert_eq.
    split; [done|]. split; [|done]. intros bid' Hne. by rewrite lookup_insert_ne.
Qed.

(** Removing a block and opening it again: [RemoveBlock] drops the entry
    of that id and no other; a following [OpenBlock] of the id calls the
    constructor and stores what it built, as on a store that never had the
    block. *)
Theorem RemoveBlock_then_OpenBlock (newBlock : Z -> Z -> gmap Z Z -> go blockFile * list event)
    (sf : segmentFile) (bid colCnt : Z) (indexCnt : gmap Z Z) :
  blocks (RemoveBlock sf bid) !! bid = None /\
  (forall bid', bid' <> bid -> blocks (RemoveBlock sf bid) !! bid' = blocks sf !! bid') /\
  OpenBlock newBlock (RemoveBlock sf bid) bid colCnt indexCnt =
    match newBlock bid colCnt indexCnt with
    | (Return bf, evs) => (Return (bf, set_blocks (<[bid := bf]> (blocks sf)) sf), evs)
    | (Panic msg, evs) => (Panic msg, evs)
    end.
Proof.
  assert (blocks (RemoveBlock sf bid) !! bid = None) as Hnone.
  { unfold RemoveBlock. destruct (blocks sf !! bid) eqn:Hbf; [|done].
    cbn [blocks set_blocks]. apply lookup_delete_eq. }
  split; [exact Hnone|]. split.
  - intros bid' Hne. unfold RemoveBlock. destruct (blocks sf !! bid); [|done].
    cbn [blocks set_blocks]. by apply lookup_delete_ne.
  - unfold OpenBlock. rewrite Hnone.
    destruct (newBlock bid colCnt indexCnt) as [[bf|msg] evs]; [|done].
    do 2 f_equal. f_equal. unfold RemoveBlock.
    destruct (blocks sf !! bid); [|done]. unfold set_blocks. cbn.
    by rewrite insert_delete_eq.
Qed.

End SegmentBlocks.

(** ** Order of the listing *)

Section ListingOrder.

Import Segment Segmentio SegmentFile SegmentOps Samples.

(** One versioned file of a column the segment store has. *)
Lemma replayNode_versionName (sf : segmentFile) (colCnt : Z) (indexCnt : gmap Z Z)
    (c bid t : Z) (f : BlockFile) (bf : blockFile) (cb : columnBlock) :
  0 <= c < 2 ^ 32 -> 0 <= bid < 2 ^ 32 -> 0 <= t < 2 ^ 64 ->
  blocks sf !! bid = Some bf ->
  columns bf !! Z.to_nat c = Some cb ->
  replayNode colCnt indexCnt sf (versionName c bid t, f) =
    Return (Continue
      (set_blocks
         (<[bid := mkBlock (id bf) (<[Z.to_nat c := replayed cb f (Some t)]> (columns bf))]>
            (blocks sf)) sf)).
Proof.
  intros Hc Hbid Ht Hblock Hcol.
  pose proof (fields_versionName c bid t ltac:(lia) ltac:(lia) ltac:(lia)) as Hfields.
  unfold replayNode. unfold fields in Hfields.
  destruct (Strings.Split (versionName c bid t) ".blk") as [|tmp0 tmp]; [discriminate|].
  rewrite Hfields. cbn [length lookup list_lookup].
  change (Z.of_nat 3 <? 2) with false. cbn iota.
  rewrite !ParseUint_pretty by done. rewrite Hblock. cbn [mbind go_bind].
  rewrite Hcol. unfold replayColumn. cbn [length lookup list_lookup].
  change (2 <? Z.of_nat 3) with true. cbn iota.
  rewrite ParseUint_pretty by done. cbn [mbind go_bind].
  unfold set_blocks. cbn [blocks seg_ref segmentID seg_ts seg_name].
  by rewrite insert_insert_eq.
Qed.

(** Replay appends in listing order: the versioned files of one column,
    listed in any order, end up in the column's data-file sequence in that
    order, and the column's timestamp is the highest one seen. *)
Theorem Replay_appends_in_listing_order (vs : list (Z * BlockFile)) (sf : segmentFile)
    (colCnt : Z) (indexCnt : gmap Z Z) (c bid : Z) (bf : blockFile) (cb : columnBlock) :
  0 <= c < 2 ^ 32 -> 0 <= bid < 2 ^ 32 ->
  Forall (fun v => 0 <= v.1 < 2 ^ 64) vs ->
  blocks sf !! bid = Some bf ->
  columns bf !! Z.to_nat c = Some cb ->
  exists (sf' : segmentFile) (bf' : blockFile) (cb' : columnBlock),
    Replay sf colCnt indexCnt None ((fun v => (versionName c bid v.1, v.2)) <$> vs) =
      Return (None, sf') /\
    blocks sf' !! bid = Some bf' /\
    columns bf' !! Z.to_nat c = Some cb' /\
    default [] (file (data cb')) = default [] (file (data cb)) ++ vs.*2 /\
    ts cb' = foldl Z.max (ts cb) vs.*1.
Proof.
  intros Hc Hbid. revert sf bf cb.
  induction vs as [|[t f] vs IH]; intros sf bf cb Hts Hblock Hcol.
  - exists sf, bf, cb. cbn. rewrite app_nil_r. done.
  - apply Forall_cons in Hts as [Ht Hts]. cbn [fst snd] in Ht.
    unfold Replay in *. rewrite fmap_cons, replayNodes_cons. cbn [fst snd].
    rewrite (replayNode_versionName sf colCnt indexCnt c bid t f bf cb) by done.
    assert (Z.to_nat c < length (columns bf))%nat as Hlen by (by eapply lookup_lt_Some).
    edestruct (IH (set_blocks
                     (<[bid := mkBlock (id bf)
                                 (<[Z.to_nat c := replayed cb f (Some t)]> (columns bf))]>
                        (blocks sf)) sf))
      as (sf' & bf' & cb' & Hrun & Hbf' & Hcb' & Hfiles & Hmax); [exact Hts| | |].
    + cbn [blocks set_blocks]. apply lookup_insert_eq.
    + cbn [columns]. by apply list_lookup_insert_eq.
    + exists sf', bf', cb'. split; [exact Hrun|]. split; [exact Hbf'|]. split; [exact Hcb'|].
      rewrite Hfiles, Hmax. cbn [fmap list_fmap fst snd foldl].
      unfold replayed. cbn [set_data data set_stat set_file file ts default].
      destruct (Z.ltb_spec (ts cb) t);
        cbn [set_data data set_stat set_file file ts set_ts default from_option id];
        unfold Datatypes.id; (split; [by rewrite <- app_assoc|f_equal; lia]).
Qed.

End ListingOrder.

(** ** Outcomes of the index queries *)

Section IndexOutcomes.

Import Indexwrapper.

Variable TranslateError : error -> error.

(** The outcomes of [Dedup], for any pair of readers: it returns nil
    exactly when the zone map excludes the key or the bloom filter answers
    "absent" without error; it asks the bloom filter exactly when the zone
    map contains the key; and an error of the bloom filter is returned
    translated, whatever the filter answered with it. *)
Theorem Dedup_nil_iff (zm : ZMReader) (bf : BFReader) (key : Z) :
  let '(res, evs) := Dedup TranslateError (mkImmutableIndex (Some zm) (Some bf)) key in
  (res = Return None <->
     Contains zm key = false \/ MayContainsKey bf key = (false, None)) /\
  (EvBFMayContainsKey key ∈ evs <-> Contains zm key = true) /\
  (forall (found : bool) (err : error),
     Contains zm key = true -> MayContainsKey bf key = (found, Some err) ->
     res = Return (Some (TranslateError err))).
Proof.
  unfold Dedup. cbn [zmReader bfReader].
  destruct (Contains zm key); cbn [negb];
    [destruct (MayContainsKey bf key) as [[|] [err|]]|];
    rewrite ?elem_of_cons, ?elem_of_nil; intuition (eauto; congruence).
Qed.

(** The outcomes of [BatchDedup], for any pair of readers: it returns the
    zone map's selection when the zone map matches no key, and otherwise
    the bloom filter's narrowing of that selection, also next to an error;
    its error is nil exactly when the zone map matches no key or the bloom
    filter matches none without error; it asks the bloom filter exactly
    when the zone map matches some key. *)
Theorem BatchDedup_outcome (zm : ZMReader) (bf : BFReader) (keys : list Z) (rowmask : bitmap) :
  let '(sel0, any0) := ContainsAny zm keys in
  let '(any1, sel1, err1) := MayContainsAnyKeys bf keys sel0 in
  let '(res, evs) :=
    BatchDedup TranslateError (mkImmutableIndex (Some zm) (Some bf)) keys rowmask in
  exists (sel : bitmap) (err : option error),
    res = Return (sel, err) /\
    sel = (if any0 then sel1 else sel0) /\
    (err = None <-> any0 = false \/ (any1 = false /\ err1 = None)) /\
    (EvBFMayContainsAnyKeys keys ∈ evs <-> any0 = true).
Proof.
  unfold BatchDedup. cbn [zmReader bfReader].
  destruct (ContainsAny zm keys) as [sel0 any0].
  destruct (MayContainsAnyKeys bf keys sel0) as [[any1 sel1] err1].
  destruct any0; cbn [negb]; [destruct err1 as [e|]; [|destruct any1]|];
    cbn [negb]; do 2 eexists;
    (split; [reflexivity|]); (split; [reflexivity|]);
    rewrite ?elem_of_cons, ?elem_of_nil; intuition (eauto; congruence).
Qed.

Context `{io : BlockIO W ColFile IdxFile MetaBuf ZMW BFW}.

(** A descriptor of an unknown index kind: when the metadata loads, the
    primary-key column opens and the first descriptor names a kind other
    than zone map and static filter, [ReadFrom] opens that descriptor's
    index file and then panics. *)
Theorem ReadFrom_unknown_kind_panics (index : immutableIndex) (pk : Z) (w w1 w2 w3 : W)
    (metas : IndicesMeta) (meta : IndexMeta) (rest : list IndexMeta)
    (colFile : ColFile) (idxFile : IdxFile) (code : Z) :
  LoadIndexMeta w = (inr metas, w1) ->
  OpenColumn pk w1 = (inr colFile, w2) ->
  Metas metas = meta :: rest ->
  IdxType meta = OtherIndex code ->
  OpenIndexFile colFile (InternalIdx meta) w2 = (inr idxFile, w3) ->
  ReadFrom index pk w = (Panic "unsupported index type", w3).
Proof.
  intros Hload Hcol Hmetas Hkind Hopen.
  unfold ReadFrom. rewrite Hload, Hcol, Hmetas. cbn [readMetas].
  by rewrite Hopen, Hkind.
Qed.

End IndexOutcomes.

(** ** Range check of constants *)

Section RangeChecks.

Import Plan.

Context {float32 float64 : Type}.
Variable inFloat32Range : float64 -> bool.
Variable toFloat32 : float64 -> float32.

(** An accepted integer is unchanged: when [rangeCheck] accepts an [int64]
    or [uint64] constant, the value it returns carries the same number, has
    the column's type, the column's type is an integer type of the
    constant's signedness, and the number lies within the range of that
    type. *)
Theorem rangeCheck_integer_exact (signed : bool) (v : Z) (typ : Typ)
    (columnName : string) (rowNumber : Z) (r : value float32 float64) :
  (if signed then - 2 ^ 63 <= v <= 2 ^ 63 - 1 else 0 <= v <= 2 ^ 64 - 1) ->
  rangeCheck inFloat32Range toFloat32 (constant signed v) typ columnName rowNumber = inr r ->
  intOf r = Some v /\ typeOf r = Some (Oid typ) /\
  signedness (Oid typ) = Some signed /\
  exists lo hi, intRange (Oid typ) = Some (lo, hi) /\ lo <= v <= hi.
Proof.
  intros Hv. unfold rangeCheck, constant.
  destruct signed, (Oid typ); try discriminate;
    repeat match goal with
      | |- context [?a <=? ?b] => destruct (Z.leb_spec a b); cbn [andb]
      | |- context [?a >=? ?b] => destruct (Z.geb_spec a b); cbn [andb]
      end;
    try discriminate; intros [= <-]; cbn;
    (split; [reflexivity|]); (split; [reflexivity|]); (split; [reflexivity|]);
    do 2 eexists; (split; [reflexivity|]); lia.
Qed.

(** Every integer that fits is accepted: an [int64] constant within the
    range of a signed integer column type, or a [uint64] constant within
    the range of an unsigned one, passes [rangeCheck]. *)
Theorem rangeCheck_integer_complete (signed : bool) (v lo hi : Z) (typ : Typ)
    (columnName : string) (rowNumber : Z) :
  signedness (Oid typ) = Some signed ->
  intRange (Oid typ) = Some (lo, hi) ->
  lo <= v <= hi ->
  exists r : value float32 float64,
    rangeCheck inFloat32Range toFloat32 (constant signed v) typ columnName rowNumber = inr r.
Proof.
  unfold rangeCheck, constant.
  destruct signed, (Oid typ); cbn; try discriminate; intros _ [= <- <-] Hv;
    repeat match goal with
      | |- context [?a <=? ?b] => destruct (Z.leb_spec a b); cbn [andb]
      | |- context [?a >=? ?b] => destruct (Z.geb_spec a b); cbn [andb]
      end; try lia; eauto.
Qed.

(** The two ways an integer is refused: out of the range of an integer
    column type of its own signedness, with the out-of-range message for
    the column and row; or against any other column type, an unsigned type
    for an [int64] and a signed type for a [uint64] included, as a type
    mismatch, whatever the number. *)
Theorem rangeCheck_integer_errors (signed : bool) (v : Z) (typ : Typ)
    (columnName : string) (rowNumber : Z) (e : planError) :
  rangeCheck inFloat32Range toFloat32 (constant signed v) typ columnName rowNumber = inl e ->
  (signedness (Oid typ) = Some signed /\ e = outOfRange columnName rowNumber /\
     exists lo hi, intRange (Oid typ) = Some (lo, hi) /\ (v < lo \/ hi < v)) \/
  (signedness (Oid typ) <> Some signed /\ e = unexpected).
Proof.
  unfold rangeCheck, constant.
  destruct signed, (Oid typ); cbn;
    repeat match goal with
      | |- context [?a <=? ?b] => destruct (Z.leb_spec a b); cbn [andb]
      | |- context [?a >=? ?b] => destruct (Z.geb_spec a b); cbn [andb]
      end; try discriminate; intros [= <-];
    first [ right; split; [discriminate|reflexivity]
          | left; split; [reflexivity|]; split; [reflexivity|];
            do 2 eexists; split; [reflexivity|]; lia ].
Qed.

(** Strings are checked by length only: [rangeCheck] accepts a string
    exactly for a char or varchar column, when the string is at most 65535
    bytes long and no longer than the column's width, and returns it
    unchanged. *)
Theorem rangeCheck_string (s : string) (typ : Typ) (columnName : string)
    (rowNumber : Z) (r : value float32 float64) :
  rangeCheck inFloat32Range toFloat32 (Str s) typ columnName rowNumber = inr r <->
  (Oid typ = T_char \/ Oid typ = T_varchar) /\
  Z.of_nat (String.length s) <= 65535 /\
  Z.of_nat (String.length s) <= Width typ /\
  r = Str s.
Proof.
  unfold rangeCheck.
  destruct (Oid typ);
    try (split; [discriminate|intros ([?|?] & _); discriminate]);
    destruct (Z.gtb_spec (Z.of_nat (String.length s)) 65535);
    destruct (Z.leb_spec (Z.of_nat (String.length s)) (Width typ));
    (split; [try discriminate; intros [= <-]; repeat split; auto; lia
            |intros (_ & ? & ? & ->); try reflexivity; lia]).
Qed.

End RangeChecks.

(** ** The further properties on concrete objects *)

Import MoreSamples SegmentOps Versions Plan.

Lemma OpenIndexFile_refs_one_slot_witness :
  indexes sampleColumn !! Z.to_nat 1 = Some newIndex /\
  exists cb',
    Segmentio.OpenIndexFile sampleColumn 1 = Return (Some (RefIndex 1), None, cb') /\
    indexes cb' !! Z.to_nat 1 = Some (mkIndex (RefHelper.mk 2) []) /\
    indexes cb' !! 0%nat = Some newIndex.
Proof.
  destruct (OpenIndexFile_refs_one_slot sampleColumn 1) as (Hin & _ & _).
  split; [reflexivity|].
  destruct (Hin newIndex ltac:(lia) eq_refl) as (cb' & Hopen & Hslot & Hothers & _).
  exists cb'. split; [exact Hopen|]. split; [exact Hslot|].
  rewrite Hothers by discriminate. reflexivity.
Defined.

Lemma column_releases_what_it_created_witness :
  0 <= 2 /\
  exists (cb : columnBlock) (evs0 : list event),
    newColumnBlock 7 2 3 = (Return cb, evs0) /\
    let '(cb', evs) := writeVersions cb [5; 9] in
    created (evs0 ++ evs) = baseName 3 7 :: (versionName 3 7 <$> [5; 9]) /\
    released (Segmentio.Destroy cb') = NewBlockFile <$> created (evs0 ++ evs) /\
    Segmentio.ReadTS cb' = default 0 (last [5; 9]).
Proof.
  assert (0 <= 2) as Hcnt by lia.
  split; [exact Hcnt|]. exact (column_releases_what_it_created 7 2 3 [5; 9] Hcnt).
Defined.

Lemma Replay_reads_base_file_witness :
  blocks sampleSegment !! 7 = Some sampleBlockFile /\
  columns sampleBlockFile !! Z.to_nat 3 = Some sampleColumn /\
  exists (sf' : segmentFile) (bf' : blockFile) (cb' : columnBlock),
    Replay sampleSegment 4 ∅ None [(baseName 3 7, sampleFile)] = Return (None, sf') /\
    blocks sf' !! 7 = Some bf' /\
    columns bf' !! Z.to_nat 3 = Some cb' /\
    file (data cb') = Some (default [] (file (data sampleColumn)) ++ [sampleFile]) /\
    ts cb' = ts sampleColumn /\
    GetDataFileStat cb' =
      mkStat (fileSize sampleFile) (originSize sampleFile) (algo sampleFile) (name sampleFile) /\
    (forall bid', bid' <> 7 -> blocks sf' !! bid' = blocks sampleSegment !! bid') /\
    (forall i, i <> Z.to_nat 3 -> columns bf' !! i = columns sampleBlockFile !! i).
Proof.
  assert (blocks sampleSegment !! 7 = Some sampleBlockFile) as Hblock by reflexivity.
  assert (columns sampleBlockFile !! Z.to_nat 3 = Some sampleColumn) as Hcol by reflexivity.
  split; [exact Hblock|]. split; [exact Hcol|].
  exact (Replay_reads_base_file sampleSegment 4 ∅ 3 7 sampleFile sampleBlockFile sampleColumn
           ltac:(done) ltac:(done) Hblock Hcol).
Defined.

Lemma Replay_reads_versioned_file_witness :
  blocks sampleSegment !! 7 = Some sampleBlockFile /\
  columns sampleBlockFile !! Z.to_nat 3 = Some sampleColumn /\
  exists (sf' : segmentFile) (bf' : blockFile) (cb' : columnBlock),
    Replay sampleSegment 4 ∅ None [(versionName 3 7 12, sampleFile)] = Return (None, sf') /\
    blocks sf' !! 7 = Some bf' /\
    columns bf' !! Z.to_nat 3 = Some cb' /\
    file (data cb') = Some (default [] (file (data sampleColumn)) ++ [sampleFile]) /\
    ts cb' = Z.max (ts sampleColumn) 12 /\
    GetDataFileStat cb' =
      mkStat (fileSize sampleFile) (originSize sampleFile) (algo sampleFile) (name sampleFile) /\
    (forall bid', bid' <> 7 -> blocks sf' !! bid' = blocks sampleSegment !! bid') /\
    (forall i, i <> Z.to_nat 3 -> columns bf' !! i = columns sampleBlockFile !! i).
Proof.
  assert (blocks sampleSegment !! 7 = Some sampleBlockFile) as Hblock by reflexivity.
  assert (columns sampleBlockFile !! Z.to_nat 3 = Some sampleColumn) as Hcol by reflexivity.
  split; [exact Hblock|]. split; [exact Hcol|].
  exact (Replay_reads_versioned_file sampleSegment 4 ∅ 3 7 12 sampleFile sampleBlockFile
           sampleColumn ltac:(done) ltac:(done) ltac:(done) Hblock Hcol).
Defined.

Lemma Replay_appends_in_listing_order_witness :
  Forall (fun v : Z * BlockFile => 0 <= v.1 < 2 ^ 64)
    [(12, sampleFile); (5, NewBlockFile "x")] /\
  exists (sf' : segmentFile) (bf' : blockFile) (cb' : columnBlock),
    Replay sampleSegment 4 ∅ None
      ((fun v : Z * BlockFile => (versionName 3 7 v.1, v.2))
         <$> [(12, sampleFile); (5, NewBlockFile "x")]) = Return (None, sf') /\
    blocks sf' !! 7 = Some bf' /\
    columns bf' !! Z.to_nat 3 = Some cb' /\
    default [] (file (data cb')) =
      default [] (file (data sampleColumn)) ++ [(12, sampleFile); (5, NewBlockFile "x")].*2 /\
    ts cb' = foldl Z.max (ts sampleColumn) [(12, sampleFile); (5, NewBlockFile "x")].*1.
Proof.
  assert (Forall (fun v : Z * BlockFile => 0 <= v.1 < 2 ^ 64)
            [(12, sampleFile); (5, NewBlockFile "x")]) as Hts
    by (repeat constructor; done).
  split; [exact Hts|].
  exact (Replay_appends_in_listing_order [(12, sampleFile); (5, NewBlockFile "x")]
           sampleSegment 4 ∅ 3 7 sampleBlockFile sampleColumn
           ltac:(done) ltac:(done) Hts eq_refl eq_refl).
Defined.

Lemma Replay_column_out_of_range_panics_witness :
  Z.of_nat (length (columns sampleBlockFile)) <= 4 /\
  Replay sampleSegment 4 ∅ None [(baseName 4 7, sampleFile); (baseName 3 7, sampleFile)] =
    Panic "index out of range".
Proof.
  assert (Z.of_nat (length (columns sampleBlockFile)) <= 4) as Hlen by (simpl; lia).
  split; [exact Hlen|].
  exact (Replay_column_out_of_range_panics sampleSegment 4 ∅ 4 7 sampleFile sampleBlockFile
           [(baseName 3 7, sampleFile)] ltac:(done) ltac:(done) eq_refl Hlen).
Defined.

Lemma Replay_error_keeps_created_block_witness :
  fields "x_1.blk" = ["x"; "1"] /\
  Replay (openSegment "seg" 1) 1 ∅ None [("x_1.blk", sampleFile)] =
    Return (Some (ErrSyntax "ParseUint" "x"),
            set_blocks
              (<[1 := mkBlock 1 [mkColumnBlock (RefHelper.mk 1) 1 0 [] newUpdates
                                   (set_file (Some []) newData) 0]]>
                 (blocks (openSegment "seg" 1)))
              (openSegment "seg" 1)).
Proof.
  assert (fields "x_1.blk" = ["x"; "1"]) as Hfields by reflexivity.
  split; [exact Hfields|].
  exact (Replay_error_keeps_created_block (openSegment "seg" 1) 1 ∅ "x_1.blk" "x" "1" []
           sampleFile 1 _ _ [] Hfields eq_refl eq_refl eq_refl eq_refl).
Defined.

Lemma Replay_only_extends_witness :
  match Replay sampleSegment 4 ∅ None
          [(baseName 3 7, sampleFile); ("meta", sampleFile); ("0_9_x.blk", sampleFile)] with
  | Return (_, sf') => extendsSegment sampleSegment sf'
  | Panic _ => False
  end.
Proof.
  destruct (Replay sampleSegment 4 ∅ None
              [(baseName 3 7, sampleFile); ("meta", sampleFile); ("0_9_x.blk", sampleFile)])
    as [[err sf']|msg] eqn:Hrun.
  - exact (Replay_only_extends _ _ _ _ _ _ _ Hrun).
  - vm_compute in Hrun. discriminate Hrun.
Defined.

Lemma OpenBlock_builds_once_witness :
  match OpenBlock bareBlock sampleSegment 8 4 ∅ with
  | (Return (bf, sf1), _) =>
      blocks sf1 !! 8 = Some bf /\
      (forall bid', bid' <> 8 -> blocks sf1 !! bid' = blocks sampleSegment !! bid') /\
      OpenBlock bareBlock sf1 8 2 {[0 := 2]} = (Return (bf, sf1), [])
  | (Panic _, _) => False
  end.
Proof.
  destruct (OpenBlock bareBlock sampleSegment 8 4 ∅) as [[[bf sf1]|msg] evs] eqn:Hopen.
  - exact (OpenBlock_builds_once bareBlock bareBlock _ _ _ _ 2 _ {[0 := 2]} _ _ Hopen).
  - vm_compute in Hopen. discriminate Hopen.
Defined.

Lemma ReadFrom_unknown_kind_panics_witness :
  ReadFrom (io := SealedBlock.blockIO sampleHashes) NewImmutableIndex 0 otherKindBlock =
    (Panic "unsupported index type", otherKindBlock).
Proof.
  exact (ReadFrom_unknown_kind_panics (io := SealedBlock.blockIO sampleHashes)
           NewImmutableIndex 0 otherKindBlock otherKindBlock otherKindBlock otherKindBlock
           (mkIndicesMeta [mkIndexMeta (OtherIndex 9) 0 0]) (mkIndexMeta (OtherIndex 9) 0 0) []
           0 (0, 0) 9 eq_refl eq_refl eq_refl eq_refl eq_refl).
Defined.

Lemma rangeCheck_integer_exact_witness :
  - 2 ^ 63 <= -5 <= 2 ^ 63 - 1 /\
  rangeCheck anyFloat32 narrow (constant true (-5)) (mkTyp T_int8 0) "a" 1 = inr (Int8 (-5)) /\
  intOf (Int8 (float32 := unit) (float64 := unit) (-5)) = Some (-5) /\
  typeOf (Int8 (float32 := unit) (float64 := unit) (-5)) = Some T_int8 /\
  signedness T_int8 = Some true /\
  exists lo hi, intRange T_int8 = Some (lo, hi) /\ lo <= -5 <= hi.
Proof.
  assert (- 2 ^ 63 <= -5 <= 2 ^ 63 - 1) as Hv by done.
  split; [exact Hv|]. split; [reflexivity|].
  exact (rangeCheck_integer_exact anyFloat32 narrow true (-5) (mkTyp T_int8 0) "a" 1
           (Int8 (-5)) Hv eq_refl).
Defined.

Lemma rangeCheck_integer_complete_witness :
  0 <= 65535 <= 2 ^ 16 - 1 /\
  exists r : value unit unit,
    rangeCheck anyFloat32 narrow (constant false 65535) (mkTyp T_uint16 0) "a" 1 = inr r.
Proof.
  assert (0 <= 65535 <= 2 ^ 16 - 1) as Hv by done.
  split; [exact Hv|].
  exact (rangeCheck_integer_complete anyFloat32 narrow false 65535 0 (2 ^ 16 - 1)
           (mkTyp T_uint16 0) "a" 1 eq_refl eq_refl Hv).
Defined.

Lemma rangeCheck_integer_errors_witness :
  rangeCheck anyFloat32 narrow (constant true 5) (mkTyp T_uint8 0) "a" 1 = inl unexpected /\
  ((signedness T_uint8 = Some true /\ unexpected = outOfRange "a" 1 /\
      exists lo hi, intRange T_uint8 = Some (lo, hi) /\ (5 < lo \/ hi < 5)) \/
   (signedness T_uint8 <> Some true /\ unexpected = unexpected)).
Proof.
  split; [reflexivity|].
  exact (rangeCheck_integer_errors anyFloat32 narrow true 5 (mkTyp T_uint8 0) "a" 1
           unexpected eq_refl).
Defined.

Lemma rangeCheck_string_witness :
  rangeCheck anyFloat32 narrow (Str "abc") (mkTyp T_varchar 3) "a" 1 = inr (Str "abc").
Proof.
  apply (rangeCheck_string anyFloat32 narrow "abc" (mkTyp T_varchar 3) "a" 1 (Str "abc")).
  split; [by right|]. split; [done|]. split; [done|reflexivity].
Defined.
